(** * Signal-iOS operational scripts: a shallow embedding

    The three scripts under [Scripts/] are embedded here:
    - [test-aws-upload.py]: hash a file, upload it to S3 under a key derived
      from the hash, record the metadata in DynamoDB;
    - [create-dynamodb-table.py]: create the metadata table, tolerating a
      table that already exists;
    - [aws-config-parser.py]: flatten a nested JSON configuration and print
      it as shell assignments.

    Python's effects (files, stdout, the clock, the two AWS services,
    exceptions) are threaded through an explicit world in a state and error
    monad.  The libraries the scripts call ([hashlib], [posixpath],
    [datetime], [boto3]) are modelled by executable definitions of their
    documented behaviour. *)

From Stdlib Require Import ZArith Lia Ascii String.
From Stdlib Require Import Strings.Byte.
From Equations Require Import Equations.
From stdpp Require Import base list strings gmap.

Local Open Scope string_scope.
Local Open Scope Z_scope.
Local Open Scope list_scope.

(** ** Bytes *)

Abbreviation bytes := (list byte).

Definition byte_to_Z (b : byte) : Z := Z.of_N (Byte.to_N b).

Definition byte_of_Z (z : Z) : byte :=
  match Byte.of_N (Z.to_N (z mod 256)) with
  | Some b => b
  | None => x00
  end.

(** The [b"..."] literals of the scripts. *)
Definition bytes_lit (s : string) : bytes := list_byte_of_string s.

(** ** hashlib.sha256

    The hash object of [hashlib] is modelled after FIPS 180-4: 32-bit words
    are [Z] with the wrap-around written out, the object keeps the chaining
    value, the bytes not yet filling a 64-byte block, and the number of bytes
    fed so far. *)
Module hashlib.

Definition mask32 (x : Z) : Z := x mod 2 ^ 32.
Definition add32 (x y : Z) : Z := mask32 (x + y).
Definition rotr (n x : Z) : Z :=
  mask32 (Z.lor (Z.shiftr x n) (Z.shiftl x (32 - n))).
Definition shr (n x : Z) : Z := Z.shiftr x n.
Definition not32 (x : Z) : Z := Z.lxor x 0xffffffff.

Definition Ch (x y z : Z) : Z := Z.lxor (Z.land x y) (Z.land (not32 x) z).
Definition Maj (x y z : Z) : Z :=
  Z.lxor (Z.lxor (Z.land x y) (Z.land x z)) (Z.land y z).
Definition Sigma0 (x : Z) : Z := Z.lxor (Z.lxor (rotr 2 x) (rotr 13 x)) (rotr 22 x).
Definition Sigma1 (x : Z) : Z := Z.lxor (Z.lxor (rotr 6 x) (rotr 11 x)) (rotr 25 x).
Definition sigma0 (x : Z) : Z := Z.lxor (Z.lxor (rotr 7 x) (rotr 18 x)) (shr 3 x).
Definition sigma1 (x : Z) : Z := Z.lxor (Z.lxor (rotr 17 x) (rotr 19 x)) (shr 10 x).

(** The constants of FIPS 180-4, 4.2.2 and 5.3.3, from their definition:
    the first 32 bits of the fractional parts of the cube roots (for [K])
    and of the square roots (for [H0]) of the first primes. *)
Definition is_prime (n : Z) : bool :=
  (2 <=? n) && forallb (fun d => negb (n mod Z.of_nat d =? 0)) (seq 2 (Z.to_nat n - 2)).

Definition primes (count : nat) : list Z :=
  take count (List.filter is_prime (map Z.of_nat (seq 2 400))).

(** The integer cube root, one bit at a time from bit [bits - 1] down. *)
Fixpoint cube_root (bits : nat) (n r : Z) : Z :=
  match bits with
  | O => r
  | S bits' =>
      let r' := r + 2 ^ Z.of_nat bits' in
      cube_root bits' n (if r' * r' * r' <=? n then r' else r)
  end.

Definition K : list Z :=
  Eval vm_compute in map (fun p => mask32 (cube_root 40 (p * 2 ^ 96) 0)) (primes 64).

(** The chaining value: eight 32-bit words. *)
Definition chain := list Z.

Definition H0 : chain :=
  Eval vm_compute in map (fun p => mask32 (Z.sqrt (p * 2 ^ 64))) (primes 8).

(** Big-endian words of a block. *)
Fixpoint words_of_bytes (bs : bytes) : list Z :=
  match bs with
  | b0 :: b1 :: b2 :: b3 :: rest =>
      (Z.shiftl (byte_to_Z b0) 24 + Z.shiftl (byte_to_Z b1) 16
       + Z.shiftl (byte_to_Z b2) 8 + byte_to_Z b3) :: words_of_bytes rest
  | _ => []
  end.

Definition bytes_of_word (w : Z) : bytes :=
  [ byte_of_Z (Z.shiftr w 24); byte_of_Z (Z.shiftr w 16);
    byte_of_Z (Z.shiftr w 8); byte_of_Z w ].

(** The message schedule: [window] holds the last sixteen words. *)
Fixpoint schedule (n : nat) (window : list Z) : list Z :=
  match n with
  | O => []
  | S n' =>
      let w := nth 0 window 0 in
      let next :=
        add32 (add32 (add32 (sigma1 (nth 14 window 0)) (nth 9 window 0))
                     (sigma0 (nth 1 window 0))) w in
      w :: schedule n' (tl window ++ [next])
  end.

Definition round (v : chain) (kw : Z * Z) : chain :=
  match v with
  | [a; b; c; d; e; f; g; h] =>
      let t1 := add32 (add32 (add32 (add32 h (Sigma1 e)) (Ch e f g)) (fst kw)) (snd kw) in
      let t2 := add32 (Sigma0 a) (Maj a b c) in
      [add32 t1 t2; a; b; c; add32 d t1; e; f; g]
  | _ => v
  end.

(** The compression function on one 64-byte block. *)
Definition compress (v : chain) (block : bytes) : chain :=
  let w := schedule 64 (words_of_bytes block) in
  let v' := fold_left round (combine K w) v in
  zip_with add32 v v'.

(** Feed whole blocks to the compression function; what is left over
    (fewer than 64 bytes) is returned with the new chaining value. *)
Equations? absorb (v : chain) (data : bytes) : chain * bytes
  by wf (length data) lt :=
  absorb v data with decide (64 <= length data)%nat => {
    | left _ => absorb (compress v (take 64 data)) (drop 64 data)
    | right _ => (v, data) }.
Proof. rewrite length_drop. lia. Qed.

(** The padding of a message of [n] bytes: 0x80, zeros up to 56 mod 64,
    the bit length on eight bytes, big-endian. *)
Definition padding (n : nat) : bytes :=
  let zeros := Z.to_nat ((55 - Z.of_nat n) mod 64) in
  let bits := 8 * Z.of_nat n in
  [x80] ++ replicate zeros x00
    ++ bytes_of_word (Z.shiftr bits 32) ++ bytes_of_word bits.

(** The hash object. *)
Record sha256 := Sha256 {
  state : chain;
  pending : bytes;
  count : nat
}.

(** [hashlib.sha256()] *)
Definition new : sha256 := Sha256 H0 [] 0.

(** [h.update(data)] *)
Definition update (h : sha256) (data : bytes) : sha256 :=
  let '(v, rest) := absorb (state h) (pending h ++ data) in
  Sha256 v rest (count h + length data).

(** [h.digest()] *)
Definition digest (h : sha256) : bytes :=
  let '(v, _) := absorb (state h) (pending h ++ padding (count h)) in
  flat_map bytes_of_word v.

Definition hex_digit (n : Z) : ascii :=
  ascii_of_nat (Z.to_nat (if n <? 10 then 48 + n else 87 + n)).

Fixpoint hex (bs : bytes) : string :=
  match bs with
  | [] => EmptyString
  | x :: rest =>
      String (hex_digit (byte_to_Z x / 16))
        (String (hex_digit (byte_to_Z x mod 16)) (hex rest))
  end.

(** [h.hexdigest()] *)
Definition hexdigest (h : sha256) : string := hex (digest h).

End hashlib.

(** The SHA-256 digest of a message taken as a whole (FIPS 180-4, 5.1.1,
    5.2.1 and 6.2.2): pad the message, cut it into 64-byte blocks, and run
    the compression function over the blocks from the initial value. *)
Module SHA256.

Fixpoint blocks (fuel : nat) (msg : bytes) : list bytes :=
  match fuel with
  | O => []
  | S fuel' =>
      match msg with
      | [] => []
      | _ => take 64 msg :: blocks fuel' (drop 64 msg)
      end
  end.

Definition padded (msg : bytes) : bytes := msg ++ hashlib.padding (length msg).

Definition digest (msg : bytes) : bytes :=
  let m := padded msg in
  flat_map hashlib.bytes_of_word
    (fold_left hashlib.compress (blocks (length m) m) hashlib.H0).

Definition hexdigest (msg : bytes) : string := hashlib.hex (digest msg).

End SHA256.

(** ** Python strings and numbers *)

Definition digit_char (n : Z) : ascii := ascii_of_nat (Z.to_nat (48 + n)).

(** Decimal digits of a non-negative integer, most significant first. *)
Fixpoint decimal_digits (fuel : nat) (n : Z) (acc : string) : string :=
  match fuel with
  | O => acc
  | S fuel' =>
      let acc' := String (digit_char (n mod 10)) acc in
      if n / 10 =? 0 then acc' else decimal_digits fuel' (n / 10) acc'
  end.

Definition decimal (n : Z) : string :=
  decimal_digits (S (Z.to_nat (Z.log2 n))) n "".

(** [str(n)] for an [int]. *)
Definition str_int (n : Z) : string :=
  if n <? 0 then "-" +:+ decimal (- n) else decimal n.

Fixpoint zeros (n : nat) : string :=
  match n with
  | O => ""
  | S n' => String "0" (zeros n')
  end.

(** ["%0<width>d" % n] *)
Definition fmt_0d (width : nat) (n : Z) : string :=
  let sign := if n <? 0 then "-" else "" in
  let digits := decimal (Z.abs n) in
  sign +:+ zeros (width - String.length sign - String.length digits) +:+ digits.

Definition upper_char (c : ascii) : ascii :=
  let n := nat_of_ascii c in
  if ((97 <=? n) && (n <=? 122))%nat then ascii_of_nat (n - 32) else c.

(** [s.upper()], on ASCII text. *)
Fixpoint upper (s : string) : string :=
  match s with
  | EmptyString => EmptyString
  | String c rest => String (upper_char c) (upper rest)
  end.

(** [s.rfind(c)]: the highest index of [c] in [s], or -1. *)
Fixpoint rfind_from (c : ascii) (s : string) (i found : Z) : Z :=
  match s with
  | EmptyString => found
  | String x rest => rfind_from c rest (i + 1) (if Ascii.eqb x c then i else found)
  end.

Definition rfind (c : ascii) (s : string) : Z := rfind_from c s 0 (-1).

(** [s[i:]] for [0 <= i]. *)
Fixpoint slice_from (i : nat) (s : string) : string :=
  match i, s with
  | O, _ => s
  | S i', String _ rest => slice_from i' rest
  | S _, EmptyString => EmptyString
  end.

(** [posixpath.basename]: [i = p.rfind('/') + 1; return p[i:]]. *)
Definition basename (p : string) : string :=
  let i := rfind "/" p + 1 in
  slice_from (Z.to_nat i) p.

(** ** datetime *)

Record datetime := Datetime {
  year : Z; month : Z; day : Z;
  hour : Z; minute : Z; second : Z; microsecond : Z
}.

(** The ranges the [datetime] constructor enforces. *)
Definition valid_datetime (d : datetime) : Prop :=
  1 <= year d <= 9999 /\ 1 <= month d <= 12 /\ 1 <= day d <= 31 /\
  0 <= hour d <= 23 /\ 0 <= minute d <= 59 /\ 0 <= second d <= 59 /\
  0 <= microsecond d <= 999999.

(** [d.isoformat()] for a naive datetime:
    ["%04d-%02d-%02d" "T" "%02d:%02d:%02d"], then [".%06d"] when the
    microsecond is not zero. *)
Definition isoformat (d : datetime) : string :=
  fmt_0d 4 (year d) +:+ "-" +:+ fmt_0d 2 (month d) +:+ "-" +:+ fmt_0d 2 (day d)
  +:+ "T" +:+ fmt_0d 2 (hour d) +:+ ":" +:+ fmt_0d 2 (minute d) +:+ ":" +:+ fmt_0d 2 (second d)
  +:+ (if microsecond d =? 0 then "" else "." +:+ fmt_0d 6 (microsecond d)).

(** The shape of an ISO 8601 extended-format date and time,
    [YYYY-MM-DDThh:mm:ss] with an optional six-digit fraction. *)
Inductive shape := Digit | Lit (c : ascii).

Definition is_digit (c : ascii) : bool :=
  let n := nat_of_ascii c in ((48 <=? n) && (n <=? 57))%nat.

Fixpoint matches (p : list shape) (s : string) : bool :=
  match p, s with
  | [], EmptyString => true
  | Digit :: p', String c s' => is_digit c && matches p' s'
  | Lit x :: p', String c s' => Ascii.eqb c x && matches p' s'
  | _, _ => false
  end.

Definition iso_seconds : list shape :=
  [Digit; Digit; Digit; Digit; Lit "-"; Digit; Digit; Lit "-"; Digit; Digit;
   Lit "T"; Digit; Digit; Lit ":"; Digit; Digit; Lit ":"; Digit; Digit].

Definition iso_fraction : list shape :=
  [Lit "."; Digit; Digit; Digit; Digit; Digit; Digit].

Definition is_iso8601 (s : string) : bool :=
  matches iso_seconds s || matches (iso_seconds ++ iso_fraction) s.

(** ** Exceptions *)

Inductive exn :=
| FileNotFoundError (path : string)
| ClientError (code message operation : string)
| WaiterError (name reason : string)
| BotoCoreError (message : string).

(** [str(e)] *)
Definition str_exn (e : exn) : string :=
  match e with
  | FileNotFoundError path =>
      "[Errno 2] No such file or directory: '" +:+ path +:+ "'"
  | ClientError code message operation =>
      "An error occurred (" +:+ code +:+ ") when calling the " +:+ operation
      +:+ " operation: " +:+ message
  | WaiterError name reason => "Waiter " +:+ name +:+ " failed: " +:+ reason
  | BotoCoreError message => message
  end.

Inductive result (A : Type) :=
| Ok (a : A)
| Raise (e : exn).
Arguments Ok {A} a.
Arguments Raise {A} e.

(** ** The world the scripts run in *)

Record s3_object := S3Object { body : bytes; content_type : string }.

(** A DynamoDB attribute value; the scripts only use the string type
    [{'S': ...}]. *)
Inductive attribute := AttrS (s : string).

Abbreviation item := (gmap string attribute).

(** A table: the name of its partition key, the number of waiting periods
    left until it is ACTIVE (0 when it is), and its items by key value. *)
Record table := Table {
  key_attr : string;
  ready_in : nat;
  items : gmap string item
}.

(** Requests sent to the services, in the order they were sent. *)
Inductive call :=
| S3_PutObject (Bucket Key : string) (Body : bytes) (ContentType : string)
| DDB_CreateTable (TableName : string) (KeySchema AttributeDefinitions : list (string * string))
    (ProvisionedThroughput : Z * Z) (Tags : list (string * string))
| DDB_DescribeTable (TableName : string)
| DDB_PutItem (TableName : string) (Item : item).

Record world := World {
  files : gmap string bytes;
  stdout : list string;
  (** the readings of the UTC clock, and how many were taken *)
  clock : nat -> datetime;
  ticks : nat;
  (** what the network does to the next requests: [Some e] makes the
      request raise [e], [None] lets it through to the service *)
  faults : list (option exn);
  buckets : gmap string (gmap string s3_object);
  tables : gmap string table;
  (** how many waiting periods a new table takes to become ACTIVE *)
  provisioning : nat;
  calls : list call
}.

Definition set_files (v : gmap string bytes) (w : world) : world :=
  World v (stdout w) (clock w) (ticks w) (faults w) (buckets w) (tables w) (provisioning w) (calls w).
Definition set_stdout (v : list string) (w : world) : world :=
  World (files w) v (clock w) (ticks w) (faults w) (buckets w) (tables w) (provisioning w) (calls w).
Definition set_ticks (v : nat) (w : world) : world :=
  World (files w) (stdout w) (clock w) v (faults w) (buckets w) (tables w) (provisioning w) (calls w).
Definition set_faults (v : list (option exn)) (w : world) : world :=
  World (files w) (stdout w) (clock w) (ticks w) v (buckets w) (tables w) (provisioning w) (calls w).
Definition set_buckets (v : gmap string (gmap string s3_object)) (w : world) : world :=
  World (files w) (stdout w) (clock w) (ticks w) (faults w) v (tables w) (provisioning w) (calls w).
Definition set_tables (v : gmap string table) (w : world) : world :=
  World (files w) (stdout w) (clock w) (ticks w) (faults w) (buckets w) v (provisioning w) (calls w).
Definition set_calls (v : list call) (w : world) : world :=
  World (files w) (stdout w) (clock w) (ticks w) (faults w) (buckets w) (tables w) (provisioning w) v.

(** ** The state and exception monad *)

Definition M (A : Type) : Type := world -> result A * world.

#[global] Instance M_ret : MRet M := fun A a w => (Ok a, w).

#[global] Instance M_bind : MBind M := fun A B f m w =>
  match m w with
  | (Ok a, w') => f a w'
  | (Raise e, w') => (Raise e, w')
  end.

(** [raise e] *)
Definition raise {A} (e : exn) : M A := fun w => (Raise e, w).

(** [try: body  except Exception as e: handler] *)
Definition try_except {A} (body : M A) (handler : exn -> M A) : M A := fun w =>
  match body w with
  | (Ok a, w') => (Ok a, w')
  | (Raise e, w') => handler e w'
  end.

(** [print(s)] *)
Definition print (s : string) : M unit := fun w =>
  (Ok tt, set_stdout (stdout w ++ [s]) w).

(** [open(path, "rb")]: the bytes of the file, still to be read. *)
Definition open_rb (path : string) : M bytes := fun w =>
  match files w !! path with
  | Some content => (Ok content, w)
  | None => (Raise (FileNotFoundError path), w)
  end.

(** [open(path, "wb")] followed by [f.write(content)]. *)
Definition write_wb (path : string) (content : bytes) : M unit := fun w =>
  (Ok tt, set_files (<[path := content]> (files w)) w).

(** [datetime.utcnow()] *)
Definition utcnow : M datetime := fun w =>
  (Ok (clock w (ticks w)), set_ticks (S (ticks w)) w).

(** [time.sleep(delay)]: one waiting period passes for the tables that are
    being created. *)
Definition sleep : M unit := fun w =>
  (Ok tt,
   set_tables ((fun t => Table (key_attr t) (pred (ready_in t)) (items t)) <$> tables w) w).

(** ** boto3 *)

(** A request is logged and uses up the network's next verdict, then either
    fails or is handed to the service. *)
Definition sent (c : call) (w : world) : world :=
  set_faults (tail (faults w)) (set_calls (calls w ++ [c]) w).

Definition request {A} (c : call) (serve : M A) : M A := fun w =>
  match head (faults w) with
  | Some (Some e) => (Raise e, sent c w)
  | _ => serve (sent c w)
  end.

Module s3.

(** [s3.put_object(Bucket=..., Key=..., Body=..., ContentType=...)]:
    the object replaces whatever the key held. *)
Definition put_object (Bucket Key : string) (Body : bytes) (ContentType : string)
  : M unit :=
  request (S3_PutObject Bucket Key Body ContentType) (fun w =>
    match buckets w !! Bucket with
    | None =>
        (Raise (ClientError "NoSuchBucket" "The specified bucket does not exist"
                  "PutObject"), w)
    | Some objects =>
        (Ok tt,
         set_buckets (<[Bucket := <[Key := S3Object Body ContentType]> objects]> (buckets w)) w)
    end).

End s3.

Module dynamodb.

Inductive table_status := CREATING | ACTIVE.

Definition status_of (t : table) : table_status :=
  match ready_in t with
  | O => ACTIVE
  | S _ => CREATING
  end.

Definition hash_key (KeySchema : list (string * string)) : option string :=
  fst <$> List.find (fun kt => String.eqb (snd kt) "HASH") KeySchema.

(** [dynamodb.create_table(...)]: a new table starts in CREATING and
    turns ACTIVE after [provisioning] waiting periods. *)
Definition create_table (TableName : string)
    (KeySchema AttributeDefinitions : list (string * string))
    (ProvisionedThroughput : Z * Z) (Tags : list (string * string)) : M unit :=
  request
    (DDB_CreateTable TableName KeySchema AttributeDefinitions ProvisionedThroughput Tags)
    (fun w =>
       match tables w !! TableName with
       | Some _ =>
           (Raise (ClientError "ResourceInUseException"
                     ("Table already exists: " +:+ TableName) "CreateTable"), w)
       | None =>
           match hash_key KeySchema with
           | None =>
               (Raise (ClientError "ValidationException"
                         "No Hash Key specified in schema" "CreateTable"), w)
           | Some k =>
               (Ok tt, set_tables (<[TableName := Table k (provisioning w) ∅]> (tables w)) w)
           end
       end).

(** [dynamodb.describe_table(TableName=...)], reduced to the table status. *)
Definition describe_table (TableName : string) : M table_status :=
  request (DDB_DescribeTable TableName) (fun w =>
    match tables w !! TableName with
    | None =>
        (Raise (ClientError "ResourceNotFoundException"
                  ("Requested resource not found: Table: " +:+ TableName +:+ " not found")
                  "DescribeTable"), w)
    | Some t => (Ok (status_of t), w)
    end).

(** [dynamodb.put_item(TableName=..., Item=...)]: without a condition
    expression the item replaces the one with the same key. *)
Definition put_item (TableName : string) (Item : item) : M unit :=
  request (DDB_PutItem TableName Item) (fun w =>
    match tables w !! TableName with
    | None =>
        (Raise (ClientError "ResourceNotFoundException"
                  "Requested resource not found" "PutItem"), w)
    | Some t =>
        match status_of t, Item !! key_attr t with
        | CREATING, _ =>
            (Raise (ClientError "ResourceNotFoundException"
                      "Requested resource not found" "PutItem"), w)
        | ACTIVE, None =>
            (Raise (ClientError "ValidationException"
                      ("One or more parameter values were invalid: Missing the key "
                       +:+ key_attr t +:+ " in the item") "PutItem"), w)
        | ACTIVE, Some (AttrS k) =>
            (Ok tt,
             set_tables
               (<[TableName := Table (key_attr t) (ready_in t) (<[k := Item]> (items t))]>
                  (tables w)) w)
        end
    end).

(** The [table_exists] waiter of botocore: poll [describe_table] every
    20 seconds, at most 25 times; ACTIVE is success,
    ResourceNotFoundException is retried, any other error ends the wait. *)
Definition max_attempts : nat := 25.

(** The waiter's view of one poll: the status, or the code and message of
    the service error. *)
Definition poll (TableName : string) : M (table_status + string * string) :=
  try_except
    (st ← describe_table TableName; mret (inl st))
    (fun e =>
       match e with
       | ClientError code message _ => mret (inr (code, message))
       | _ => raise e
       end).

Fixpoint wait_loop (remaining : nat) (TableName : string) : M unit :=
  match remaining with
  | O => raise (WaiterError "TableExists" "Max attempts exceeded")
  | S n =>
      let retry : M unit :=
        match n with
        | O => raise (WaiterError "TableExists" "Max attempts exceeded")
        | S _ => sleep;; wait_loop n TableName
        end in
      response ← poll TableName;
      match response with
      | inl ACTIVE => mret tt
      | inl CREATING => retry
      | inr (code, message) =>
          if String.eqb code "ResourceNotFoundException" then retry
          else raise (WaiterError "TableExists"
                        ("An error occurred (" +:+ code +:+ "): " +:+ message))
      end
  end.

(** [dynamodb.get_waiter('table_exists').wait(TableName=...)] *)
Definition wait_table_exists (TableName : string) : M unit :=
  wait_loop max_attempts TableName.

End dynamodb.

(** ** Scripts/test-aws-upload.py *)

Definition S3_BUCKET : string := "2314823894myawsbucket".
Definition S3_PREFIX : string := "images/".
Definition DYNAMODB_TABLE : string := "SignalMetadata".
Definition AWS_REGION : string := "us-east-1".

(** Create a test image file. *)
Definition create_test_image : M string :=
  write_wb "test_image.heic" (bytes_lit "Test image content");;
  mret "test_image.heic".

(** [for byte_block in iter(lambda: f.read(4096), b""):
       sha256_hash.update(byte_block)]
    where [f] is what remains to be read of the file. *)
Equations? read_blocks (f : bytes) (sha256_hash : hashlib.sha256) : hashlib.sha256
  by wf (length f) lt :=
  read_blocks f sha256_hash with decide (take 4096 f = []) => {
    | left _ => sha256_hash
    | right _ => read_blocks (drop 4096 f) (hashlib.update sha256_hash (take 4096 f)) }.
Proof. destruct f; [done|]. rewrite length_drop. simpl. lia. Qed.

(** The iterator [iter(lambda: f.read(4096), b"")] itself: the blocks it
    yields, up to the empty read that ends it. *)
Equations? file_blocks (f : bytes) : list bytes by wf (length f) lt :=
file_blocks f with decide (take 4096 f = []) => {
  | left _ => []
  | right _ => take 4096 f :: file_blocks (drop 4096 f) }.
Proof. destruct f; [done|]. rewrite length_drop. simpl. lia. Qed.

(** Calculate SHA-256 hash of a file. *)
Definition calculate_file_hash (file_path : string) : M string :=
  let sha256_hash := hashlib.new in
  f ← open_rb file_path;
  mret (hashlib.hexdigest (read_blocks f sha256_hash)).

(** Upload file to S3 and return the S3 key. *)
Definition upload_to_s3 (file_path file_hash : string) : M string :=
  let file_name := basename file_path in
  let s3_key := S3_PREFIX +:+ file_hash +:+ "__" +:+ file_name in
  try_except
    (f ← open_rb file_path;
     s3.put_object S3_BUCKET s3_key f "image/heic";;
     print ("Successfully uploaded to S3: " +:+ s3_key);;
     mret s3_key)
    (fun e =>
       print ("Error uploading to S3: " +:+ str_exn e);;
       raise e).

(** The item [store_in_dynamodb] writes. *)
Definition metadata_item (s3_key file_hash file_name upload_timestamp : string) : item :=
  list_to_map
    [ ("file_hash", AttrS file_hash);
      ("s3_key", AttrS s3_key);
      ("file_name", AttrS file_name);
      ("upload_timestamp", AttrS upload_timestamp);
      ("status", AttrS "uploaded") ].

(** Store metadata in DynamoDB. *)
Definition store_in_dynamodb (s3_key file_hash file_name : string) : M unit :=
  try_except
    (now ← utcnow;
     response ← dynamodb.put_item DYNAMODB_TABLE
       (metadata_item s3_key file_hash file_name (isoformat now));
     print "Successfully stored metadata in DynamoDB";;
     mret response)
    (fun e =>
       print ("Error storing in DynamoDB: " +:+ str_exn e);;
       raise e).

(** The steps of [main] on the file it has created: hash, upload, record. *)
Definition pipeline (file_path : string) : M unit :=
  file_hash ← calculate_file_hash file_path;
  print ("File hash (signature): " +:+ file_hash);;
  s3_key ← upload_to_s3 file_path file_hash;
  store_in_dynamodb s3_key file_hash (basename file_path);;
  print "Process completed successfully!".

(** The body of the [try] of [main]. *)
Definition main_try : M unit :=
  file_path ← create_test_image;
  print ("Created test image: " +:+ file_path);;
  pipeline file_path.

Definition main : M unit :=
  try_except main_try (fun e => print ("Process failed: " +:+ str_exn e)).

(** ** Scripts/create-dynamodb-table.py *)

(** An exception that is not a [ClientError] is not caught by the
    [except ClientError] clause: the handler raises it again. *)
Definition create_file_metadata_table (table_name : string) : M bool :=
  try_except
    (dynamodb.create_table table_name
       [("file_hash", "HASH")] [("file_hash", "S")] (5, 5) [("Project", "Signal-iOS")];;
     print ("Creating table " +:+ table_name +:+ "...");;
     dynamodb.wait_table_exists table_name;;
     print ("Table " +:+ table_name +:+ " created successfully!");;
     mret true)
    (fun e =>
       match e with
       | ClientError code _ _ =>
           if String.eqb code "ResourceInUseException" then
             print ("Table " +:+ table_name +:+ " already exists");;
             mret true
           else
             print ("Error creating table: " +:+ str_exn e);;
             mret false
       | _ => raise e
       end).

Definition TABLE_NAME : string := "signal-file-metadata".

Definition create_dynamodb_table_main : M bool :=
  create_file_metadata_table TABLE_NAME.

(** ** Examples of runs *)

Definition noon : datetime := Datetime 2024 5 17 12 0 0 0.

(** An account with the bucket and an ACTIVE metadata table, no file, and a
    clock that advances one second per reading. *)
Definition w0 : world :=
  {| files := ∅;
     stdout := [];
     clock := fun n => Datetime 2024 5 17 12 0 (Z.of_nat n) 250000;
     ticks := 0;
     faults := [];
     buckets := {[ S3_BUCKET := ∅ ]};
     tables := {[ DYNAMODB_TABLE := Table "file_hash" 0 ∅ ]};
     provisioning := 2;
     calls := [] |}.

(** The same account holding [test.bin] with the bytes [b"hello world"]. *)
Definition w_hello : world :=
  set_files {[ "test.bin" := bytes_lit "hello world" ]} w0.

(** That account after one run of the pipeline on [test.bin], and after a
    second one. *)
Definition w_hello_once : world := snd (pipeline "test.bin" w_hello).
Definition w_hello_twice : world := snd (pipeline "test.bin" w_hello_once).

(** The same account when the first request cannot reach the service. *)
Definition w_down : world :=
  set_faults [Some (BotoCoreError "Could not connect to the endpoint URL")] w0.


(** An account without the table, in which a new table never becomes ACTIVE
    within the waiter's patience. *)
Definition w_slow : world :=
  World ∅ [] (clock w0) 0 [] ∅ ∅ 40 [].

(** ** Scripts/aws-config-parser.py *)

(** The configuration is a JSON document.  [flatten_config] only asks of a
    value whether it is a dict, and [format_shell] only applies [str] to
    what is not: the leaves here are the JSON scalars whose [str] is modelled
    ([None], booleans, integers, strings). *)
Inductive atom :=
| ANone
| ABool (v : bool)
| AInt (n : Z)
| AStr (s : string).

#[warnings="-register-all"]
Inductive value :=
| Leaf (a : atom)
| Dict (entries : list (string * value)).

(** A Python [dict] with string keys: the entries in insertion order. *)
Abbreviation pydict V := (list (string * V)).

Section pydict.
Context {V : Type}.

(** [d[k] = v]: an existing key keeps its position. *)
Fixpoint dict_set (d : pydict V) (k : string) (v : V) : pydict V :=
  match d with
  | [] => [(k, v)]
  | (k', v') :: rest =>
      if String.eqb k' k then (k', v) :: rest else (k', v') :: dict_set rest k v
  end.

(** [d.update(other)] *)
Definition dict_update (d other : pydict V) : pydict V :=
  fold_left (fun acc kv => dict_set acc (fst kv) (snd kv)) other d.

(** [d.get(k)] *)
Fixpoint dict_get (d : pydict V) (k : string) : option V :=
  match d with
  | [] => None
  | (k', v') :: rest => if String.eqb k' k then Some v' else dict_get rest k
  end.
End pydict.

(** The truth value of a string: it is not empty. *)
Definition truthy (s : string) : bool :=
  match s with
  | EmptyString => false
  | String _ _ => true
  end.

(** [str(v)] *)
Definition py_str (v : atom) : string :=
  match v with
  | ANone => "None"
  | ABool true => "True"
  | ABool false => "False"
  | AInt n => str_int n
  | AStr s => s
  end.

(** Format dictionary items as shell variable assignments. *)
Definition format_shell (vars_dict : pydict atom) (prefix : string) : list string :=
  fold_left
    (fun lines kv =>
       let name := upper (prefix +:+ fst kv) in
       lines ++ [name +:+ "='" +:+ py_str (snd kv) +:+ "'"])
    vars_dict [].

(** Flatten nested config dict for shell output; [flatten_tree] is
    [flatten_config] on the dict [Dict config]. *)
Fixpoint flatten_tree (config : value) (parent_key sep : string) {struct config}
  : pydict atom :=
  match config with
  | Leaf _ => []
  | Dict entries =>
      (fix loop (entries : list (string * value)) (items : pydict atom) : pydict atom :=
         match entries with
         | [] => items
         | (k, v) :: rest =>
             let new_key := if truthy parent_key then parent_key +:+ sep +:+ k else k in
             match v with
             | Dict _ => loop rest (dict_update items (flatten_tree v new_key sep))
             | Leaf a => loop rest (dict_set items new_key a)
             end
         end) entries []
  end.

Definition flatten_config (config : pydict value) (parent_key sep : string) : pydict atom :=
  flatten_tree (Dict config) parent_key sep.

(** What [main] prints for the whole configuration:
    [flat = flatten_config(config); shell_lines = format_shell(flat)]. *)
Definition shell_lines (config : pydict value) : list string :=
  format_shell (flatten_config config "" "_") "".

(** [extract_section]: the whole config for ['all'], the value under the
    section when the config has it, [KeyError] otherwise. *)
Inductive lookup_result :=
| Found (v : value)
| KeyError (message : string).

Definition extract_section (config : pydict value) (section : string) : lookup_result :=
  if String.eqb section "all" then Found (Dict config)
  else
    match dict_get config section with
    | Some v => Found v
    | None => KeyError ("Section '" +:+ section +:+ "' not found in configuration.")
    end.

(** What a run of [main] without [--key] comes to, once the file is loaded
    into [config]: the lines printed on standard output, the exit with
    status 1 after the [KeyError] was reported, or the [AttributeError] that
    [flatten_config] raises, uncaught, when what it is given has no [items]
    method because it is not a dict. *)
Inductive parser_outcome :=
| Printed (lines : list string)
| Exit1
| AttributeError.

Definition parser_main (config : pydict value) (section : string) : parser_outcome :=
  match extract_section config section with
  | KeyError _ => Exit1
  | Found section_data =>
      match (if negb (String.eqb section "all") then section_data else Dict config) with
      | Dict entries => Printed (format_shell (flatten_config entries "" "_") "")
      | Leaf _ => AttributeError
      end
  end.

(** ** Vocabulary of the statements *)

(** The hash object after the bytes [data] were fed to it, in any number
    of updates. *)
Definition fed (h : hashlib.sha256) (data : bytes) : Prop :=
  hashlib.absorb hashlib.H0 data = (hashlib.state h, hashlib.pending h)
  /\ hashlib.count h = length data.

(** The object a bucket holds under a key. *)
Definition stored_object (w : world) (Bucket Key : string) : option s3_object :=
  match buckets w !! Bucket with
  | Some objects => objects !! Key
  | None => None
  end.

(** The item a table holds under a key value. *)
Definition record (w : world) (TableName key : string) : option item :=
  match tables w !! TableName with
  | Some t => items t !! key
  | None => None
  end.

(** The network fails none of the coming requests. *)
Definition no_faults (w : world) : Prop := Forall (fun f => f = None) (faults w).

(** The services the upload script relies on are in place: the bucket
    exists, and the metadata table is ACTIVE with [file_hash] as its key
    (the schema [create_file_metadata_table] gives a table). *)
Definition ready (w : world) : Prop :=
  no_faults w /\
  is_Some (buckets w !! S3_BUCKET) /\
  exists t, tables w !! DYNAMODB_TABLE = Some t
            /\ key_attr t = "file_hash" /\ ready_in t = O.

(** A request that, if it writes a metadata record, writes it with the
    status ["uploaded"]. *)
Definition writes_uploaded (c : call) : Prop :=
  match c with
  | DDB_PutItem _ Item => Item !! "status" = Some (AttrS "uploaded")
  | _ => True
  end.




(** A computation whose requests, whatever the world it starts in, write
    only records with the status ["uploaded"], and which leaves in the tables
    only records that were there or have that status. *)
Definition writes_only_uploaded {A} (m : M A) : Prop :=
  forall w,
    (exists new, calls (snd (m w)) = calls w ++ new /\ Forall writes_uploaded new) /\
    (forall TableName k (Item : item),
       record (snd (m w)) TableName k = Some Item ->
       record w TableName k = Some Item \/ Item !! "status" = Some (AttrS "uploaded")).

(** The body of the loop of [flatten_config], for one entry. *)
Definition flatten_step (parent_key sep : string) (items : pydict atom)
    (kv : string * value) : pydict atom :=
  let new_key := if truthy parent_key then parent_key +:+ sep +:+ fst kv else fst kv in
  match snd kv with
  | Dict entries => dict_update items (flatten_config entries new_key sep)
  | Leaf a => dict_set items new_key a
  end.

(** The line [format_shell] prints for one entry. *)
Definition shell_line (prefix : string) (kv : string * atom) : string :=
  upper (prefix +:+ fst kv) +:+ "='" +:+ py_str (snd kv) +:+ "'".

(** A property of the world that a computation keeps. *)
Definition preserves {A} (P : world -> Prop) (m : M A) : Prop :=
  forall w, P w -> P (snd (m w)).

(** The leaves of a config in the order of the document, each with the name
    [flatten_config] gives it. *)
Fixpoint leaves_tree (config : value) (parent_key sep : string) {struct config}
  : list (string * atom) :=
  match config with
  | Leaf _ => []
  | Dict entries =>
      (fix loop (entries : list (string * value)) : list (string * atom) :=
         match entries with
         | [] => []
         | (k, v) :: rest =>
             let new_key := if truthy parent_key then parent_key +:+ sep +:+ k else k in
             match v with
             | Dict _ => leaves_tree v new_key sep ++ loop rest
             | Leaf a => (new_key, a) :: loop rest
             end
         end) entries
  end.

Definition leaves (config : pydict value) (parent_key sep : string) : list (string * atom) :=
  leaves_tree (Dict config) parent_key sep.

(** No key of the config, at any depth, is the empty string. *)
Fixpoint no_empty_key (config : value) : bool :=
  match config with
  | Leaf _ => true
  | Dict entries =>
      (fix loop (entries : list (string * value)) : bool :=
         match entries with
         | [] => true
         | (k, v) :: rest => truthy k && no_empty_key v && loop rest
         end) entries
  end.

(** The characters of a lowercase hexadecimal numeral. *)
Definition is_lower_hex (c : ascii) : bool :=
  let n := nat_of_ascii c in
  (((48 <=? n) && (n <=? 57)) || ((97 <=? n) && (n <=? 102)))%nat.

Fixpoint string_forall (p : ascii -> bool) (s : string) : bool :=
  match s with
  | EmptyString => true
  | String c rest => p c && string_forall p rest
  end.

(** The entry points of the three scripts. *)
Inductive operation :=
| Op_main
| Op_create_test_image
| Op_calculate_file_hash (file_path : string)
| Op_upload_to_s3 (file_path file_hash : string)
| Op_store_in_dynamodb (s3_key file_hash file_name : string)
| Op_create_file_metadata_table (table_name : string).

Definition run (op : operation) : M unit :=
  match op with
  | Op_main => main
  | Op_create_test_image => create_test_image;; mret tt
  | Op_calculate_file_hash file_path => calculate_file_hash file_path;; mret tt
  | Op_upload_to_s3 file_path file_hash => upload_to_s3 file_path file_hash;; mret tt
  | Op_store_in_dynamodb s3_key file_hash file_name =>
      store_in_dynamodb s3_key file_hash file_name
  | Op_create_file_metadata_table table_name =>
      create_file_metadata_table table_name;; mret tt
  end.

(** * Properties *)

(** ** The streaming hash is SHA-256 *)

Section hashing.
Import hashlib.

Lemma absorb_short v data :
  (length data < 64)%nat -> absorb v data = (v, data).
Proof.
  intros Hlen. rewrite absorb_equation_1.
  destruct (decide (64 <= length data)%nat); [lia | reflexivity].
Qed.

Lemma absorb_block v data :
  (64 <= length data)%nat ->
  absorb v data = absorb (compress v (take 64 data)) (drop 64 data).
Proof.
  intros Hlen. rewrite absorb_equation_1 at 1.
  destruct (decide (64 <= length data)%nat); [reflexivity | lia].
Qed.

(** Feeding [x ++ y] is feeding [x], then what [x] left over and [y]. *)
Lemma absorb_app v x y :
  absorb v (x ++ y) = absorb (fst (absorb v x)) (snd (absorb v x) ++ y).
Proof.
  remember (length x) as n eqn:Hn.
  revert v x Hn. induction n as [n IH] using lt_wf_ind. intros v x Hn.
  destruct (decide (64 <= length x)%nat) as [Hge | Hlt].
  - rewrite (absorb_block v x) by done.
    rewrite (absorb_block v (x ++ y)) by (rewrite length_app; lia).
    rewrite take_app_le, drop_app_le by lia.
    apply (IH (length (drop 64 x))); [rewrite length_drop; lia | done].
  - rewrite (absorb_short v x) by lia. reflexivity.
Qed.

Lemma absorb_blocks fuel v data :
  (length data <= fuel)%nat ->
  (exists q, length data = 64 * q)%nat ->
  absorb v data = (fold_left compress (SHA256.blocks fuel data) v, []).
Proof.
  revert v data. induction fuel as [|fuel IH]; intros v data Hfuel [q Hq].
  - destruct data; [|simpl in Hfuel; lia]. by rewrite absorb_short by (simpl; lia).
  - destruct data as [|x data'] eqn:Hd.
    + by rewrite absorb_short by (simpl; lia).
    + rewrite <- Hd in *. assert (64 <= length data)%nat.
      { destruct q; [subst; simpl in Hq; lia | lia]. }
      rewrite absorb_block by done.
      assert (SHA256.blocks (S fuel) data
              = take 64 data :: SHA256.blocks fuel (drop 64 data)) as ->.
      { rewrite Hd. reflexivity. }
      simpl. apply IH.
      * rewrite length_drop. lia.
      * exists (q - 1)%nat. rewrite length_drop. lia.
Qed.

Lemma length_bytes_of_word w : length (bytes_of_word w) = 4%nat.
Proof. reflexivity. Qed.

Lemma length_padded msg :
  exists q, (length (SHA256.padded msg) = 64 * q)%nat.
Proof.
  unfold SHA256.padded, padding.
  rewrite !length_app, length_replicate, !length_bytes_of_word. simpl length.
  set (n := length msg).
  pose proof (Z.mod_pos_bound (55 - Z.of_nat n) 64 ltac:(lia)) as Hb.
  pose proof (Z.div_mod (55 - Z.of_nat n) 64 ltac:(lia)) as Hdm.
  exists (Z.to_nat (1 - (55 - Z.of_nat n) / 64)). lia.
Qed.

Lemma fed_new : fed new [].
Proof. split; [by rewrite absorb_short by (simpl; lia) | done]. Qed.

Lemma fed_update h data x : fed h data -> fed (update h x) (data ++ x).
Proof.
  intros [Habs Hcount]. unfold fed, update; simpl.
  rewrite absorb_app, Habs. simpl.
  destruct (absorb (state h) (pending h ++ x)) as [v rest]. simpl.
  split; [done | rewrite length_app; lia].
Qed.

Lemma fed_digest h data : fed h data -> digest h = SHA256.digest data.
Proof.
  intros [Habs Hcount]. unfold digest, SHA256.digest.
  pose proof (absorb_app H0 data (padding (length data))) as Happ.
  rewrite Habs in Happ. simpl in Happ. rewrite Hcount, <- Happ.
  fold (SHA256.padded data).
  rewrite (absorb_blocks (length (SHA256.padded data))) by
    (done || apply length_padded).
  reflexivity.
Qed.

(** The loop of [calculate_file_hash] feeds the whole file. *)
Lemma read_blocks_fed f h data :
  fed h data -> fed (read_blocks f h) (data ++ f).
Proof.
  remember (length f) as n eqn:Hn.
  revert f h data Hn. induction n as [n IH] using lt_wf_ind. intros f h data Hn Hfed.
  rewrite read_blocks_equation_1.
  destruct (decide (take 4096 f = [])) as [Hnil | Hne]; simpl.
  - destruct f; [by rewrite app_nil_r | done].
  - replace (data ++ f) with ((data ++ take 4096 f) ++ drop 4096 f)
      by (by rewrite <- app_assoc, take_drop).
    eapply IH; [ | reflexivity | by apply fed_update].
    destruct f; [done |]. rewrite length_drop. subst n. simpl. lia.
Qed.

Lemma read_blocks_digest f :
  hexdigest (read_blocks f new) = SHA256.hexdigest f.
Proof.
  unfold hexdigest, SHA256.hexdigest. f_equal.
  apply fed_digest. apply (read_blocks_fed f new []), fed_new.
Qed.

End hashing.

(** The model against known digests, one of them of a message read in two
    blocks. *)
Example sha256_abc :
  SHA256.hexdigest (bytes_lit "abc")
  = "ba7816bf8f01cfea414140de5dae2223b00361a396177a9cb410ff61f20015ad".
Proof. vm_compute. reflexivity. Qed.

Example sha256_empty :
  SHA256.hexdigest []
  = "e3b0c44298fc1c149afbf4c8996fb92427ae41e4649b934ca495991b7852b855".
Proof. vm_compute. reflexivity. Qed.

Example read_blocks_5000 :
  hashlib.hexdigest (read_blocks (replicate 5000 x61) hashlib.new)
  = "c526c6222044dab5674de9c4ac7f4566ebb5e4d8bf9d8ea34c9cc8a7cc3c869c".
Proof. vm_compute. reflexivity. Qed.

(** ** The timestamp has the ISO 8601 shape *)

Section timestamps.

Lemma matches_app p1 p2 s1 s2 :
  matches p1 s1 = true -> matches p2 s2 = true ->
  matches (p1 ++ p2) (s1 +:+ s2) = true.
Proof.
  revert s1. induction p1 as [|sh p1 IH]; intros s1 H1 H2.
  - destruct s1; [done | discriminate].
  - destruct sh, s1; simpl in *; try discriminate;
      apply andb_true_iff in H1 as [-> H1]; simpl; by apply IH.
Qed.

Lemma matches_length p s : matches p s = true -> String.length s = length p.
Proof.
  revert s. induction p as [|sh p IH]; intros s H.
  - destruct s; [done | discriminate].
  - destruct sh, s; simpl in *; try discriminate;
      apply andb_true_iff in H as [_ H]; f_equal; by apply IH.
Qed.

Lemma is_digit_digit_char d : 0 <= d < 10 -> is_digit (digit_char d) = true.
Proof.
  intros Hd.
  assert (d = 0 \/ d = 1 \/ d = 2 \/ d = 3 \/ d = 4 \/ d = 5 \/ d = 6 \/ d = 7
          \/ d = 8 \/ d = 9) as Hcases by lia.
  repeat destruct Hcases as [-> | Hcases]; try reflexivity. by subst.
Qed.

(** Converting a number below [10 ^ w] gives at most [w] more digits. *)
Lemma decimal_digits_shape fuel : forall n acc (k w : nat),
  0 <= n < 10 ^ Z.of_nat w -> (1 <= w)%nat ->
  matches (replicate k Digit) acc = true ->
  exists l : nat, (l <= w)%nat /\
    matches (replicate (l + k) Digit) (decimal_digits fuel n acc) = true.
Proof.
  induction fuel as [|fuel IH]; intros n acc k w Hn Hw Hacc.
  { exists 0%nat. split; [lia | done]. }
  assert (matches (replicate (S k) Digit) (String (digit_char (n mod 10)) acc) = true)
    as Hacc'.
  { simpl. rewrite is_digit_digit_char by (apply Z.mod_pos_bound; lia). done. }
  simpl. destruct (Z.eqb_spec (n / 10) 0) as [Hz | Hnz].
  - exists 1%nat. split; [lia | done].
  - assert (2 <= w)%nat as Hw2.
    { destruct w as [|[|w]]; [lia | | lia].
      exfalso. apply Hnz. apply Z.div_small. simpl in Hn. lia. }
    destruct (IH (n / 10) (String (digit_char (n mod 10)) acc) (S k) (w - 1)%nat)
      as [l [Hl Hm]]; [ | lia | done | ].
    + split; [apply Z.div_pos; lia |].
      apply Z.div_lt_upper_bound; [lia |].
      replace (Z.of_nat w) with (1 + Z.of_nat (w - 1)) in Hn by lia.
      rewrite Z.pow_add_r in Hn by lia. lia.
    + exists (S l). split; [lia |].
      replace (S l + k)%nat with (l + S k)%nat by lia. done.
Qed.

Lemma zeros_shape n : matches (replicate n Digit) (zeros n) = true.
Proof. induction n; [done | simpl; done]. Qed.

(** A field in range is printed on exactly [w] digits. *)
Lemma fmt_0d_shape (w : nat) n :
  0 <= n < 10 ^ Z.of_nat w -> (1 <= w)%nat ->
  matches (replicate w Digit) (fmt_0d w n) = true.
Proof.
  intros Hn Hw. unfold fmt_0d.
  destruct (Z.ltb_spec n 0) as [? | _]; [lia |].
  rewrite Z.abs_eq by lia. unfold decimal.
  destruct (decimal_digits_shape (S (Z.to_nat (Z.log2 n))) n "" 0 w)
    as [l [Hl Hm]]; [done .. |].
  rewrite Nat.add_0_r in Hm. rewrite (matches_length _ _ Hm), length_replicate.
  change (String.length "") with 0%nat.
  change ("" +:+ ?s) with s.
  replace (w - 0 - l)%nat with (w - l)%nat by lia.
  replace w with ((w - l) + l)%nat at 1 by lia.
  rewrite replicate_add. apply matches_app; [apply zeros_shape | done].
Qed.

Lemma isoformat_shape d : valid_datetime d -> is_iso8601 (isoformat d) = true.
Proof.
  intros (Hy & Hmo & Hd & Hh & Hmi & Hs & Hus).
  pose proof (fmt_0d_shape 4 (year d) ltac:(simpl; lia) ltac:(lia)) as Ey.
  pose proof (fmt_0d_shape 2 (month d) ltac:(simpl; lia) ltac:(lia)) as Emo.
  pose proof (fmt_0d_shape 2 (day d) ltac:(simpl; lia) ltac:(lia)) as Ed.
  pose proof (fmt_0d_shape 2 (hour d) ltac:(simpl; lia) ltac:(lia)) as Eh.
  pose proof (fmt_0d_shape 2 (minute d) ltac:(simpl; lia) ltac:(lia)) as Emi.
  pose proof (fmt_0d_shape 2 (second d) ltac:(simpl; lia) ltac:(lia)) as Es.
  pose proof (fmt_0d_shape 6 (microsecond d) ltac:(simpl; lia) ltac:(lia)) as Eus.
  unfold isoformat, is_iso8601. apply orb_true_iff.
  destruct (Z.eqb_spec (microsecond d) 0) as [_ | _]; [left | right].
  - change iso_seconds with
      (replicate 4 Digit ++ [Lit "-"] ++ replicate 2 Digit ++ [Lit "-"]
       ++ replicate 2 Digit ++ [Lit "T"] ++ replicate 2 Digit ++ [Lit ":"]
       ++ replicate 2 Digit ++ [Lit ":"] ++ replicate 2 Digit ++ []).
    repeat (apply matches_app; [done |]); done.
  - change (iso_seconds ++ iso_fraction) with
      (replicate 4 Digit ++ [Lit "-"] ++ replicate 2 Digit ++ [Lit "-"]
       ++ replicate 2 Digit ++ [Lit "T"] ++ replicate 2 Digit ++ [Lit ":"]
       ++ replicate 2 Digit ++ [Lit ":"] ++ replicate 2 Digit ++ [Lit "."]
       ++ replicate 6 Digit).
    repeat (apply matches_app; [done |]); done.
Qed.

End timestamps.

Example isoformat_noon : isoformat noon = "2024-05-17T12:00:00".
Proof. reflexivity. Qed.

Example isoformat_microsecond :
  isoformat (Datetime 987 1 2 3 4 5 60) = "0987-01-02T03:04:05.000060".
Proof. reflexivity. Qed.

Example str_int_examples :
  str_int 0 = "0" /\ str_int 1000000 = "1000000" /\ str_int (-42) = "-42".
Proof. repeat split. Qed.

Example basename_examples :
  basename "test_image.heic" = "test_image.heic" /\
  basename "/tmp/upload/test.bin" = "test.bin" /\
  basename "dir/" = "".
Proof. repeat split. Qed.

(** ** Running the primitives *)

Section runs.

Lemma bind_run {A B} (m : M A) (f : A -> M B) w :
  (m ≫= f) w = match m w with
               | (Ok a, w') => f a w'
               | (Raise e, w') => (Raise e, w')
               end.
Proof. reflexivity. Qed.

Lemma try_except_run {A} (body : M A) handler w :
  try_except body handler w = match body w with
                              | (Ok a, w') => (Ok a, w')
                              | (Raise e, w') => handler e w'
                              end.
Proof. reflexivity. Qed.

Lemma calculate_file_hash_run file_path w :
  calculate_file_hash file_path w =
  match files w !! file_path with
  | Some content => (Ok (SHA256.hexdigest content), w)
  | None => (Raise (FileNotFoundError file_path), w)
  end.
Proof.
  unfold calculate_file_hash, open_rb. rewrite bind_run.
  destruct (files w !! file_path); [| done].
  unfold mret, M_ret. by rewrite read_blocks_digest.
Qed.

Lemma put_object_run Bucket Key Body ContentType w :
  let c := S3_PutObject Bucket Key Body ContentType in
  s3.put_object Bucket Key Body ContentType w =
  match head (faults w) with
  | Some (Some e) => (Raise e, sent c w)
  | _ =>
      match buckets w !! Bucket with
      | None =>
          (Raise (ClientError "NoSuchBucket" "The specified bucket does not exist"
                    "PutObject"), sent c w)
      | Some objects =>
          (Ok tt,
           set_buckets
             (<[Bucket := <[Key := S3Object Body ContentType]> objects]> (buckets w))
             (sent c w))
      end
  end.
Proof. unfold s3.put_object, request. by destruct (head (faults w)) as [[e|]|]. Qed.

Lemma upload_to_s3_run file_path file_hash w :
  let s3_key := S3_PREFIX +:+ file_hash +:+ "__" +:+ basename file_path in
  upload_to_s3 file_path file_hash w =
  match files w !! file_path with
  | None =>
      (Raise (FileNotFoundError file_path),
       set_stdout (stdout w ++ ["Error uploading to S3: "
                                +:+ str_exn (FileNotFoundError file_path)]) w)
  | Some content =>
      match s3.put_object S3_BUCKET s3_key content "image/heic" w with
      | (Ok _, w') =>
          (Ok s3_key,
           set_stdout (stdout w' ++ ["Successfully uploaded to S3: " +:+ s3_key]) w')
      | (Raise e, w') =>
          (Raise e, set_stdout (stdout w' ++ ["Error uploading to S3: " +:+ str_exn e]) w')
      end
  end.
Proof.
  unfold upload_to_s3, open_rb. rewrite try_except_run, bind_run.
  destruct (files w !! file_path); [| done].
  rewrite bind_run.
  by destruct (s3.put_object _ _ _ _ w) as [[[]|e] w'].
Qed.

Lemma put_item_run TableName (Item : item) w :
  let c := DDB_PutItem TableName Item in
  dynamodb.put_item TableName Item w =
  match head (faults w) with
  | Some (Some e) => (Raise e, sent c w)
  | _ =>
      match tables w !! TableName with
      | None =>
          (Raise (ClientError "ResourceNotFoundException"
                    "Requested resource not found" "PutItem"), sent c w)
      | Some t =>
          match dynamodb.status_of t, Item !! key_attr t with
          | dynamodb.CREATING, _ =>
              (Raise (ClientError "ResourceNotFoundException"
                        "Requested resource not found" "PutItem"), sent c w)
          | dynamodb.ACTIVE, None =>
              (Raise (ClientError "ValidationException"
                        ("One or more parameter values were invalid: Missing the key "
                         +:+ key_attr t +:+ " in the item") "PutItem"), sent c w)
          | dynamodb.ACTIVE, Some (AttrS k) =>
              (Ok tt,
               set_tables
                 (<[TableName := Table (key_attr t) (ready_in t) (<[k := Item]> (items t))]>
                    (tables w)) (sent c w))
          end
      end
  end.
Proof. unfold dynamodb.put_item, request. by destruct (head (faults w)) as [[e|]|]. Qed.

Lemma store_in_dynamodb_run s3_key file_hash file_name w :
  let Item := metadata_item s3_key file_hash file_name (isoformat (clock w (ticks w))) in
  store_in_dynamodb s3_key file_hash file_name w =
  match dynamodb.put_item DYNAMODB_TABLE Item (set_ticks (S (ticks w)) w) with
  | (Ok _, w') =>
      (Ok tt, set_stdout (stdout w' ++ ["Successfully stored metadata in DynamoDB"]) w')
  | (Raise e, w') =>
      (Raise e, set_stdout (stdout w' ++ ["Error storing in DynamoDB: " +:+ str_exn e]) w')
  end.
Proof.
  unfold store_in_dynamodb, utcnow. rewrite try_except_run, !bind_run.
  by destruct (dynamodb.put_item _ _ _) as [[[]|e] w'].
Qed.

Lemma pipeline_run file_path w :
  pipeline file_path w =
  match files w !! file_path with
  | None => (Raise (FileNotFoundError file_path), w)
  | Some content =>
      let file_hash := SHA256.hexdigest content in
      match upload_to_s3 file_path file_hash
              (set_stdout (stdout w ++ ["File hash (signature): " +:+ file_hash]) w) with
      | (Raise e, w') => (Raise e, w')
      | (Ok s3_key, w') =>
          match store_in_dynamodb s3_key file_hash (basename file_path) w' with
          | (Raise e, w'') => (Raise e, w'')
          | (Ok _, w'') =>
              (Ok tt, set_stdout (stdout w'' ++ ["Process completed successfully!"]) w'')
          end
      end
  end.
Proof.
  unfold pipeline. rewrite bind_run, calculate_file_hash_run.
  destruct (files w !! file_path); [| done].
  rewrite !bind_run. unfold print at 1. rewrite bind_run.
  destruct (upload_to_s3 _ _ _) as [[s3_key|e] w']; [| done].
  rewrite !bind_run.
  by destruct (store_in_dynamodb _ _ _ w') as [[[]|e] w''].
Qed.


(** What the world is after a request, by its outcome. *)
Lemma put_object_raises Bucket Key Body ContentType w e w' :
  s3.put_object Bucket Key Body ContentType w = (Raise e, w') ->
  w' = sent (S3_PutObject Bucket Key Body ContentType) w.
Proof.
  rewrite put_object_run. cbv zeta.
  destruct (head (faults w)) as [[e'|]|], (buckets w !! Bucket); congruence.
Qed.

Lemma put_object_returns Bucket Key Body ContentType w w' :
  s3.put_object Bucket Key Body ContentType w = (Ok tt, w') ->
  exists objects,
    buckets w !! Bucket = Some objects /\
    w' = set_buckets
           (<[Bucket := <[Key := S3Object Body ContentType]> objects]> (buckets w))
           (sent (S3_PutObject Bucket Key Body ContentType) w).
Proof.
  rewrite put_object_run. cbv zeta.
  destruct (head (faults w)) as [[e'|]|], (buckets w !! Bucket) as [objects|];
    try congruence; intros [= <-]; by exists objects.
Qed.

Lemma put_object_stdout Bucket Key Body ContentType v w :
  s3.put_object Bucket Key Body ContentType (set_stdout v w)
  = (fst (s3.put_object Bucket Key Body ContentType w),
     set_stdout v (snd (s3.put_object Bucket Key Body ContentType w))).
Proof.
  rewrite !put_object_run. cbv zeta. simpl.
  by destruct (head (faults w)) as [[e'|]|], (buckets w !! Bucket).
Qed.

Lemma put_item_raises TableName (Item : item) w e w' :
  dynamodb.put_item TableName Item w = (Raise e, w') ->
  w' = sent (DDB_PutItem TableName Item) w.
Proof.
  rewrite put_item_run. cbv zeta.
  destruct (head (faults w)) as [[e'|]|], (tables w !! TableName) as [t|];
    try congruence;
    destruct (dynamodb.status_of t), (Item !! key_attr t) as [[k]|]; congruence.
Qed.

Lemma put_item_returns TableName (Item : item) w w' :
  dynamodb.put_item TableName Item w = (Ok tt, w') ->
  exists t k,
    tables w !! TableName = Some t /\ ready_in t = O /\
    Item !! key_attr t = Some (AttrS k) /\
    w' = set_tables
           (<[TableName := Table (key_attr t) (ready_in t) (<[k := Item]> (items t))]>
              (tables w))
           (sent (DDB_PutItem TableName Item) w).
Proof.
  rewrite put_item_run. cbv zeta.
  destruct (head (faults w)) as [[e'|]|], (tables w !! TableName) as [t|];
    try congruence;
    unfold dynamodb.status_of;
    destruct (ready_in t) eqn:Hready, (Item !! key_attr t) as [[k]|] eqn:Hkey;
    try congruence; intros [= <-]; exists t, k; by rewrite Hready.
Qed.

(** A run of the pipeline that succeeds: what it found and what it left. *)
Lemma pipeline_returns file_path w w' :
  pipeline file_path w = (Ok tt, w') ->
  exists B objects t k,
    let file_hash := SHA256.hexdigest B in
    let s3_key := S3_PREFIX +:+ file_hash +:+ "__" +:+ basename file_path in
    let Item := metadata_item s3_key file_hash (basename file_path)
                  (isoformat (clock w (ticks w))) in
    files w !! file_path = Some B /\
    buckets w !! S3_BUCKET = Some objects /\
    tables w !! DYNAMODB_TABLE = Some t /\ ready_in t = O /\
    Item !! key_attr t = Some (AttrS k) /\
    files w' = files w /\ clock w' = clock w /\ ticks w' = S (ticks w) /\
    faults w' = tail (tail (faults w)) /\
    buckets w'
    = <[S3_BUCKET := <[s3_key := S3Object B "image/heic"]> objects]> (buckets w) /\
    tables w'
    = <[DYNAMODB_TABLE := Table (key_attr t) O (<[k := Item]> (items t))]> (tables w) /\
    calls w'
    = calls w ++ [S3_PutObject S3_BUCKET s3_key B "image/heic";
                  DDB_PutItem DYNAMODB_TABLE Item] /\
    stdout w'
    = stdout w ++ ["File hash (signature): " +:+ file_hash;
                   "Successfully uploaded to S3: " +:+ s3_key;
                   "Successfully stored metadata in DynamoDB";
                   "Process completed successfully!"].
Proof.
  rewrite pipeline_run.
  destruct (files w !! file_path) as [B|] eqn:HB; [| discriminate]. cbv zeta.
  rewrite upload_to_s3_run. cbv zeta.
  change (files (set_stdout ?v w)) with (files w). rewrite HB, put_object_stdout.
  destruct (s3.put_object _ _ _ _ w) as [[[]|e] w1] eqn:Hput; [| discriminate].
  apply put_object_returns in Hput as (objects & Hobj & ->).
  cbn [fst snd]. rewrite store_in_dynamodb_run. cbv zeta.
  destruct (dynamodb.put_item _ _ _) as [[[]|e] w2] eqn:Hitem; [| discriminate].
  apply put_item_returns in Hitem as (t & k & Htab & Hready & Hkey & ->).
  intros [= <-]. exists B, objects, t, k. cbv zeta.
  simpl in Htab, Hkey |- *. rewrite Hready.
  repeat split; try done; by rewrite <- !app_assoc.
Qed.

Lemma no_faults_head w : no_faults w -> head (faults w) = None \/ head (faults w) = Some None.
Proof.
  unfold no_faults. destruct (faults w) as [|f fs]; [by left |].
  intros [-> _]%Forall_cons. by right.
Qed.

Lemma no_faults_tail w w' : no_faults w -> faults w' = tail (faults w) -> no_faults w'.
Proof.
  unfold no_faults. intros H ->.
  destruct (faults w) as [|f fs]; [done |]. by apply Forall_cons in H as [_ H].
Qed.

Lemma request_no_fault {A} c (serve : M A) w :
  no_faults w -> request c serve w = serve (sent c w).
Proof.
  intros Hnf. unfold request. by destruct (no_faults_head w Hnf) as [-> | ->].
Qed.

(** With the services in place the pipeline succeeds. *)
Lemma pipeline_ready file_path w B :
  files w !! file_path = Some B -> ready w ->
  exists w', pipeline file_path w = (Ok tt, w').
Proof.
  intros HB (Hnf & [objects Hobj] & t & Htab & Hkey & Hready).
  rewrite pipeline_run, HB. cbv zeta. rewrite upload_to_s3_run. cbv zeta.
  change (files (set_stdout ?v w)) with (files w).
  rewrite HB, put_object_stdout. unfold s3.put_object.
  rewrite request_no_fault by done.
  change (buckets (sent ?c w)) with (buckets w). rewrite Hobj. cbn [fst snd].
  rewrite store_in_dynamodb_run. cbv zeta. unfold dynamodb.put_item.
  rewrite request_no_fault by (by eapply no_faults_tail).
  simpl. rewrite Htab. unfold dynamodb.status_of. rewrite Hready, Hkey.
  unfold metadata_item. simpl. rewrite lookup_insert_eq. eauto.
Qed.

End runs.

(** ** The fingerprint *)

(** C5. For every byte sequence B held by a file, the fingerprint that
    [calculate_file_hash] computes by feeding the file to the hash object in
    4096-byte blocks is the SHA-256 digest of B taken as a whole; it leaves
    the world as it was, and any other computation on a file with the same
    bytes gives the same result. *)
Theorem calculate_file_hash_streaming (w : world) (file_path : string) (B : bytes) :
  files w !! file_path = Some B ->
  calculate_file_hash file_path w = (Ok (SHA256.hexdigest B), w) /\
  hashlib.hexdigest (read_blocks B hashlib.new) = SHA256.hexdigest B /\
  forall w' file_path',
    files w' !! file_path' = Some B ->
    fst (calculate_file_hash file_path' w') = fst (calculate_file_hash file_path w).
Proof.
  intros HB. rewrite calculate_file_hash_run, HB. split; [done |].
  split; [apply read_blocks_digest |].
  intros w' file_path' HB'. by rewrite calculate_file_hash_run, HB'.
Qed.

Lemma calculate_file_hash_streaming_witness :
  files w_hello !! "test.bin" = Some (bytes_lit "hello world") /\
  calculate_file_hash "test.bin" w_hello
  = (Ok "b94d27b9934d3e08a52e52d7da7dabfac484efe37a5380ee9088f7ace2efcde9", w_hello).
Proof.
  assert (files w_hello !! "test.bin" = Some (bytes_lit "hello world")) as HB
    by (vm_compute; reflexivity).
  split; [exact HB |].
  destruct (calculate_file_hash_streaming w_hello "test.bin" _ HB) as [Hrun _].
  rewrite Hrun. f_equal.
Defined.

(** ** A failed upload *)

(** C3. When the object-store put fails with [e], the run of the pipeline
    fails with that same error, the only request that was sent is the put,
    and the tables of the index are what they were: no metadata record is
    written. *)
Theorem upload_failure_leaves_index (w : world) (file_path : string) (B : bytes)
    (e : exn) :
  let file_hash := SHA256.hexdigest B in
  let s3_key := S3_PREFIX +:+ file_hash +:+ "__" +:+ basename file_path in
  files w !! file_path = Some B ->
  fst (s3.put_object S3_BUCKET s3_key B "image/heic" w) = Raise e ->
  fst (pipeline file_path w) = Raise e /\
  tables (snd (pipeline file_path w)) = tables w /\
  calls (snd (pipeline file_path w))
  = calls w ++ [S3_PutObject S3_BUCKET s3_key B "image/heic"] /\
  stdout (snd (pipeline file_path w))
  = stdout w ++ ["File hash (signature): " +:+ file_hash;
                 "Error uploading to S3: " +:+ str_exn e].
Proof.
  intros file_hash s3_key HB Hput.
  rewrite pipeline_run, HB. cbv zeta. rewrite upload_to_s3_run. cbv zeta.
  fold file_hash. fold s3_key.
  change (files (set_stdout ?v w)) with (files w). rewrite HB.
  rewrite put_object_stdout.
  destruct (s3.put_object S3_BUCKET s3_key B "image/heic" w) as [r w'] eqn:Hrun.
  simpl in Hput. subst r. apply put_object_raises in Hrun as ->.
  simpl. by rewrite <- app_assoc.
Qed.

Lemma upload_failure_leaves_index_witness :
  files (set_faults (faults w_down) w_hello) !! "test.bin"
  = Some (bytes_lit "hello world") /\
  fst (pipeline "test.bin" (set_faults (faults w_down) w_hello))
  = Raise (BotoCoreError "Could not connect to the endpoint URL") /\
  tables (snd (pipeline "test.bin" (set_faults (faults w_down) w_hello)))
  = tables w_hello.
Proof.
  assert (files (set_faults (faults w_down) w_hello) !! "test.bin"
          = Some (bytes_lit "hello world")) as HB by (vm_compute; reflexivity).
  split; [exact HB |].
  pose proof (upload_failure_leaves_index (set_faults (faults w_down) w_hello)
                "test.bin" (bytes_lit "hello world")
                (BotoCoreError "Could not connect to the endpoint URL")) as H.
  cbv zeta in H.
  destruct (H HB ltac:(vm_compute; reflexivity)) as (Hfail & Htables & _).
  split; [exact Hfail | exact Htables].
Defined.

(** ** A successful ingestion *)

Lemma metadata_item_fields s3_key file_hash file_name upload_timestamp :
  let Item := metadata_item s3_key file_hash file_name upload_timestamp in
  Item !! "file_hash" = Some (AttrS file_hash) /\
  Item !! "s3_key" = Some (AttrS s3_key) /\
  Item !! "file_name" = Some (AttrS file_name) /\
  Item !! "upload_timestamp" = Some (AttrS upload_timestamp) /\
  Item !! "status" = Some (AttrS "uploaded").
Proof. unfold metadata_item. simpl. by simplify_map_eq. Qed.

(** C4. A successful ingestion of the bytes B of the file [file_path] has
    put B under the key [S3_PREFIX ++ sha256-hex(B) ++ "__" ++ basename] and
    has written the record whose [file_hash] is the fingerprint of B, whose
    [s3_key] is that key, whose [file_name] is the base name, whose [status]
    is ["uploaded"], and whose [upload_timestamp] is the reading of the UTC
    clock in the ISO 8601 shape. *)
Theorem ingestion_key_and_record (w w' : world) (file_path : string) :
  pipeline file_path w = (Ok tt, w') ->
  valid_datetime (clock w (ticks w)) ->
  exists (B : bytes) (Item : item) (upload_timestamp : string),
    let file_hash := SHA256.hexdigest B in
    let s3_key := S3_PREFIX +:+ file_hash +:+ "__" +:+ basename file_path in
    files w !! file_path = Some B /\
    calls w' = calls w ++ [S3_PutObject S3_BUCKET s3_key B "image/heic";
                           DDB_PutItem DYNAMODB_TABLE Item] /\
    stored_object w' S3_BUCKET s3_key = Some (S3Object B "image/heic") /\
    (exists k, record w' DYNAMODB_TABLE k = Some Item) /\
    Item !! "file_hash" = Some (AttrS file_hash) /\
    Item !! "s3_key" = Some (AttrS s3_key) /\
    Item !! "file_name" = Some (AttrS (basename file_path)) /\
    Item !! "status" = Some (AttrS "uploaded") /\
    Item !! "upload_timestamp" = Some (AttrS upload_timestamp) /\
    upload_timestamp = isoformat (clock w (ticks w)) /\
    is_iso8601 upload_timestamp = true.
Proof.
  intros Hrun Hclock.
  apply pipeline_returns in Hrun
    as (B & objects & t & k & HB & Hobj & Htab & Hready & Hkey & _ & _ & _ & _
        & Hbuckets & Htables & Hcalls & _).
  exists B, (metadata_item
    (S3_PREFIX +:+ SHA256.hexdigest B +:+ "__" +:+ basename file_path)
    (SHA256.hexdigest B) (basename file_path) (isoformat (clock w (ticks w)))),
    (isoformat (clock w (ticks w))). cbv zeta.
  pose proof (metadata_item_fields
    (S3_PREFIX +:+ SHA256.hexdigest B +:+ "__" +:+ basename file_path)
    (SHA256.hexdigest B) (basename file_path) (isoformat (clock w (ticks w))))
    as (Hf1 & Hf2 & Hf3 & Hf4 & Hf5).
  repeat split; try done.
  - unfold stored_object. rewrite Hbuckets, lookup_insert_eq. apply lookup_insert_eq.
  - exists k. unfold record. rewrite Htables, lookup_insert_eq. simpl.
    apply lookup_insert_eq.
  - by apply isoformat_shape.
Qed.

Lemma ingestion_key_and_record_witness :
  exists Item : item,
    calls (snd (pipeline "test.bin" w_hello))
    = [S3_PutObject "2314823894myawsbucket"
         "images/b94d27b9934d3e08a52e52d7da7dabfac484efe37a5380ee9088f7ace2efcde9__test.bin"
         (bytes_lit "hello world") "image/heic";
       DDB_PutItem "SignalMetadata" Item] /\
    Item !! "file_hash"
    = Some (AttrS "b94d27b9934d3e08a52e52d7da7dabfac484efe37a5380ee9088f7ace2efcde9") /\
    Item !! "status" = Some (AttrS "uploaded") /\
    Item !! "upload_timestamp" = Some (AttrS "2024-05-17T12:00:00.250000").
Proof.
  assert (pipeline "test.bin" w_hello = (Ok tt, snd (pipeline "test.bin" w_hello)))
    as Hrun by (vm_compute; reflexivity).
  assert (valid_datetime (clock w_hello (ticks w_hello))) as Hclock
    by (unfold valid_datetime; simpl; lia).
  destruct (ingestion_key_and_record _ _ _ Hrun Hclock)
    as (B & Item & ts & HB & Hcalls & _ & _ & Hhash & _ & _ & Hstatus & Hts & -> & _).
  assert (B = bytes_lit "hello world") as ->
    by (vm_compute in HB; injection HB as <-; reflexivity).
  exists Item. rewrite Hcalls, Hhash, Hstatus, Hts.
  repeat split; vm_compute; reflexivity.
Defined.

(** ** Running the pipeline again *)

(** C1, as stated, fails: the record of the second run is not the record of
    the first, since each carries the time of its own run. *)
Lemma rerun_record_differs :
  fst (pipeline "test.bin" w_hello) = Ok tt /\
  fst (pipeline "test.bin" w_hello_once) = Ok tt /\
  record w_hello_once DYNAMODB_TABLE (SHA256.hexdigest (bytes_lit "hello world"))
  <> record w_hello_twice DYNAMODB_TABLE (SHA256.hexdigest (bytes_lit "hello world")).
Proof.
  split; [vm_compute; reflexivity |]. split; [vm_compute; reflexivity |].
  intros Heq.
  apply (f_equal (fun r : option item => r ≫= (.!! "upload_timestamp"))) in Heq.
  vm_compute in Heq. discriminate.
Qed.

(** C1, amended. With the services in place, two runs of the pipeline on
    the same bytes and name both succeed; both put the same bytes under the
    same storage key, so the bucket after the second run is the bucket after
    the first; both write, under the fingerprint, a record with the same
    [file_hash], [s3_key], [file_name] and [status], whose
    [upload_timestamp] is the clock reading of its own run; no other record
    changes. *)
Theorem pipeline_rerun (w : world) (file_path : string) (B : bytes) :
  files w !! file_path = Some B ->
  ready w ->
  let file_hash := SHA256.hexdigest B in
  let s3_key := S3_PREFIX +:+ file_hash +:+ "__" +:+ basename file_path in
  let record_at n :=
    metadata_item s3_key file_hash (basename file_path) (isoformat (clock w n)) in
  exists w1 w2,
    pipeline file_path w = (Ok tt, w1) /\
    pipeline file_path w1 = (Ok tt, w2) /\
    calls w2
    = calls w ++ [S3_PutObject S3_BUCKET s3_key B "image/heic";
                  DDB_PutItem DYNAMODB_TABLE (record_at (ticks w));
                  S3_PutObject S3_BUCKET s3_key B "image/heic";
                  DDB_PutItem DYNAMODB_TABLE (record_at (S (ticks w)))] /\
    stored_object w1 S3_BUCKET s3_key = Some (S3Object B "image/heic") /\
    buckets w2 = buckets w1 /\
    record w1 DYNAMODB_TABLE file_hash = Some (record_at (ticks w)) /\
    record w2 DYNAMODB_TABLE file_hash = Some (record_at (S (ticks w))) /\
    forall k, k <> file_hash ->
      record w2 DYNAMODB_TABLE k = record w DYNAMODB_TABLE k.
Proof.
  intros HB Hready file_hash s3_key record_at.
  destruct (pipeline_ready _ _ _ HB Hready) as [w1 Hrun1].
  destruct Hready as (Hnf & _ & t0 & Htab0 & Hkey0 & Hready0).
  pose proof Hrun1 as Hinv1.
  apply pipeline_returns in Hinv1
    as (B1 & objects & t & k & HB1 & Hobj & Htab & Hrdy & Hkey & Hfiles1 & Hclock1
        & Hticks1 & Hfaults1 & Hbuckets1 & Htables1 & Hcalls1 & _).
  cbv zeta in *.
  assert (B1 = B) as -> by congruence.
  assert (t = t0) as -> by congruence.
  rewrite Hkey0 in Hkey, Htables1.
  rewrite (proj1 (metadata_item_fields _ _ _ _)) in Hkey.
  injection Hkey as <-. fold file_hash s3_key in Htables1, Hcalls1, Hbuckets1.
  assert (ready w1) as Hready1.
  { split; [| split].
    - unfold no_faults in *. rewrite Hfaults1.
      destruct (faults w) as [|f [|f' fs]]; simpl; try done.
      by apply Forall_cons in Hnf as [_ [_ ?]%Forall_cons].
    - rewrite Hbuckets1, lookup_insert_eq. eauto.
    - eexists. rewrite Htables1, lookup_insert_eq. eauto. }
  assert (files w1 !! file_path = Some B) as HB' by (by rewrite Hfiles1).
  destruct (pipeline_ready _ _ _ HB' Hready1) as [w2 Hrun2].
  pose proof Hrun2 as Hinv2.
  apply pipeline_returns in Hinv2
    as (B2 & objects2 & t2 & k2 & HB2 & Hobj2 & Htab2 & Hrdy2 & Hkey2 & _ & _
        & _ & _ & Hbuckets2 & Htables2 & Hcalls2 & _).
  cbv zeta in *.
  assert (B2 = B) as -> by congruence.
  rewrite Hbuckets1, lookup_insert_eq in Hobj2. injection Hobj2 as <-.
  rewrite Htables1, lookup_insert_eq in Htab2. injection Htab2 as <-.
  simpl in Hkey2, Htables2.
  rewrite (proj1 (metadata_item_fields _ _ _ _)) in Hkey2.
  injection Hkey2 as <-. rewrite Hclock1, Hticks1 in Htables2, Hcalls2.
  fold file_hash s3_key in Htables2, Hcalls2, Hbuckets2.
  exists w1, w2. split; [done |]. split; [done |].
  split; [by rewrite Hcalls2, Hcalls1, <- app_assoc |].
  split; [unfold stored_object; rewrite Hbuckets1, lookup_insert_eq;
          apply lookup_insert_eq |].
  split; [by rewrite Hbuckets2, Hbuckets1, !insert_insert_eq |].
  split; [unfold record; rewrite Htables1, lookup_insert_eq; apply lookup_insert_eq |].
  split; [unfold record; rewrite Htables2, lookup_insert_eq; apply lookup_insert_eq |].
  intros k Hk. unfold record.
  rewrite Htables2, lookup_insert_eq, Htab0. simpl.
  by rewrite !lookup_insert_ne.
Qed.

Lemma pipeline_rerun_witness :
  files w_hello !! "test.bin" = Some (bytes_lit "hello world") /\
  ready w_hello /\
  fst (pipeline "test.bin" w_hello_once) = Ok tt /\
  buckets w_hello_twice = buckets w_hello_once.
Proof.
  assert (files w_hello !! "test.bin" = Some (bytes_lit "hello world")) as HB
    by (vm_compute; reflexivity).
  assert (ready w_hello) as Hready.
  { split; [constructor | split].
    - eexists. vm_compute. reflexivity.
    - eexists. split; [vm_compute; reflexivity | by split]. }
  destruct (pipeline_rerun _ _ _ HB Hready)
    as (w1 & w2 & Hrun1 & Hrun2 & _ & _ & Hbuckets & _).
  unfold w_hello_twice, w_hello_once. rewrite Hrun1. simpl. by rewrite Hrun2.
Defined.

(** ** What the caller of [main] sees *)

Lemma main_try_run w :
  main_try w =
  pipeline "test_image.heic"
    (set_stdout (stdout w ++ ["Created test image: test_image.heic"])
       (set_files (<["test_image.heic" := bytes_lit "Test image content"]> (files w)) w)).
Proof.
  unfold main_try, create_test_image, write_wb.
  rewrite !bind_run. unfold mret, M_ret. cbv beta iota.
  rewrite bind_run. unfold print at 1. cbv beta iota. reflexivity.
Qed.





(** ** Provisioning the table *)

Section provisioning.
Import dynamodb.

(** The [except ClientError] clause of [create_file_metadata_table]. *)
Lemma create_file_metadata_table_run table_name w :
  let handler (e : exn) (w' : world) : result bool * world :=
    match e with
    | ClientError code message operation =>
        if String.eqb code "ResourceInUseException" then
          (Ok true,
           set_stdout (stdout w' ++ ["Table " +:+ table_name +:+ " already exists"]) w')
        else
          (Ok false,
           set_stdout (stdout w' ++ ["Error creating table: "
                                     +:+ str_exn (ClientError code message operation)]) w')
    | _ => (Raise e, w')
    end in
  create_file_metadata_table table_name w =
  match create_table table_name [("file_hash", "HASH")] [("file_hash", "S")] (5, 5)
          [("Project", "Signal-iOS")] w with
  | (Raise e, w1) => handler e w1
  | (Ok _, w1) =>
      match wait_table_exists table_name
              (set_stdout (stdout w1 ++ ["Creating table " +:+ table_name +:+ "..."]) w1)
      with
      | (Raise e, w2) => handler e w2
      | (Ok _, w2) =>
          (Ok true,
           set_stdout (stdout w2 ++ ["Table " +:+ table_name +:+ " created successfully!"])
             w2)
      end
  end.
Proof.
  unfold create_file_metadata_table. cbv zeta. rewrite try_except_run, bind_run.
  destruct (create_table _ _ _ _ _ w) as [[[]|e] w1].
  2:{ destruct e as [| code message operation | |]; try done.
      by destruct (String.eqb code _). }
  rewrite bind_run. unfold print at 1. cbv beta iota. rewrite bind_run.
  destruct (wait_table_exists _ _) as [[[]|e] w2].
  - by rewrite bind_run.
  - destruct e as [| code message operation | |]; try done.
    by destruct (String.eqb code _).
Qed.

Lemma poll_run TableName w :
  poll TableName w =
  match describe_table TableName w with
  | (Ok st, w') => (Ok (inl st), w')
  | (Raise (ClientError code message _), w') => (Ok (inr (code, message)), w')
  | (Raise e, w') => (Raise e, w')
  end.
Proof.
  unfold poll. rewrite try_except_run, bind_run.
  destruct (describe_table TableName w) as [[st|e] w']; [done |].
  by destruct e.
Qed.

(** The waiter turns the errors of the service into its own: it never
    raises a [ClientError]. *)
Lemma dynamodb_wait_loop_raises n TableName : forall w e w',
  wait_loop n TableName w = (Raise e, w') ->
  forall code message operation, e <> ClientError code message operation.
Proof.
  induction n as [|n IH]; intros w e w' Hrun; [by injection Hrun as <- |].
  simpl in Hrun. rewrite bind_run, poll_run in Hrun.
  assert (forall w1,
            match n with
            | O => raise (WaiterError "TableExists" "Max attempts exceeded")
            | S _ => sleep;; wait_loop n TableName
            end w1 = (Raise e, w') ->
            forall code message operation, e <> ClientError code message operation)
    as Hretry.
  { intros w1 Hr. destruct n; [by injection Hr as <- |].
    rewrite bind_run in Hr. unfold sleep at 1 in Hr. by eapply IH. }
  destruct (describe_table TableName w) as [[[]|e1] w1].
  - by eapply Hretry.
  - done.
  - destruct e1 as [| code message operation | |]; try by injection Hrun as <-.
    destruct (String.eqb code _); [by eapply Hretry | by injection Hrun as <-].
Qed.

Lemma wait_table_exists_raises TableName w e w' :
  wait_table_exists TableName w = (Raise e, w') ->
  forall code message operation, e <> ClientError code message operation.
Proof. apply dynamodb_wait_loop_raises. Qed.

Lemma describe_table_run TableName w t :
  no_faults w -> tables w !! TableName = Some t ->
  describe_table TableName w = (Ok (status_of t), sent (DDB_DescribeTable TableName) w).
Proof.
  intros Hnf Htab. unfold describe_table. rewrite request_no_fault by done.
  change (tables (sent ?c w)) with (tables w). by rewrite Htab.
Qed.

(** Without network failures the waiter polls a table that is [k] waiting
    periods from ACTIVE [k + 1] times if it has the attempts for it, and
    gives up after its last attempt otherwise. *)
Lemma wait_loop_run n TableName : forall w t,
  no_faults w -> tables w !! TableName = Some t ->
  exists w',
    wait_loop n TableName w
    = (if (ready_in t <? n)%nat then Ok tt
       else Raise (WaiterError "TableExists" "Max attempts exceeded"), w') /\
    calls w' = calls w ++ replicate (Nat.min (S (ready_in t)) n) (DDB_DescribeTable TableName) /\
    stdout w' = stdout w /\
    no_faults w' /\
    tables w' !! TableName
    = Some (Table (key_attr t) (ready_in t - (Nat.min (S (ready_in t)) n - 1)) (items t)).
Proof.
  induction n as [|n IH]; intros w t Hnf Htab.
  { exists w. simpl. rewrite app_nil_r, Nat.sub_0_r. by destruct t. }
  simpl wait_loop. rewrite bind_run, poll_run, (describe_table_run _ _ t) by done.
  assert (no_faults (sent (DDB_DescribeTable TableName) w)) as Hnf'
    by (by eapply no_faults_tail).
  unfold status_of. destruct (ready_in t) as [|k] eqn:Hk.
  { eexists. split; [done |]. simpl. rewrite Htab, <- Hk. by destruct t. }
  destruct n as [|n].
  { eexists. split; [done |]. simpl. rewrite Htab, <- Hk. by destruct t. }
  rewrite bind_run. unfold sleep at 1. cbv beta iota.
  set (w1 := set_tables _ _).
  destruct (IH w1 (Table (key_attr t) k (items t))) as (w' & Hrun & Hcalls & Hout & Hnf1 & Htab1).
  { done. }
  { subst w1. simpl. rewrite lookup_fmap, Htab. simpl. by rewrite Hk. }
  exists w'. simpl in Hcalls, Htab1. rewrite Hrun.
  split; [done |]. split; [| split; [done | split; [done |]]].
  - rewrite Hcalls. subst w1. simpl. by rewrite <- app_assoc.
  - rewrite Htab1. do 2 f_equal. simpl. lia.
Qed.

Lemma create_table_absent TableName KeySchema AttributeDefinitions
    ProvisionedThroughput Tags k w :
  no_faults w -> tables w !! TableName = None -> hash_key KeySchema = Some k ->
  create_table TableName KeySchema AttributeDefinitions ProvisionedThroughput Tags w
  = (Ok tt,
     set_tables (<[TableName := Table k (provisioning w) ∅]> (tables w))
       (sent (DDB_CreateTable TableName KeySchema AttributeDefinitions
                ProvisionedThroughput Tags) w)).
Proof.
  intros Hnf Htab Hkey. unfold create_table. rewrite request_no_fault by done.
  change (tables (sent ?c w)) with (tables w). by rewrite Htab, Hkey.
Qed.

Lemma create_table_present TableName KeySchema AttributeDefinitions
    ProvisionedThroughput Tags w :
  no_faults w -> is_Some (tables w !! TableName) ->
  create_table TableName KeySchema AttributeDefinitions ProvisionedThroughput Tags w
  = (Raise (ClientError "ResourceInUseException"
              ("Table already exists: " +:+ TableName) "CreateTable"),
     sent (DDB_CreateTable TableName KeySchema AttributeDefinitions
             ProvisionedThroughput Tags) w).
Proof.
  intros Hnf [t Htab]. unfold create_table. rewrite request_no_fault by done.
  change (tables (sent ?c w)) with (tables w). by rewrite Htab.
Qed.

(** Creating a table that is absent, without network failures. *)
Lemma create_file_metadata_table_absent table_name w :
  no_faults w -> tables w !! table_name = None ->
  exists w',
    create_file_metadata_table table_name w
    = (if (provisioning w <? max_attempts)%nat then Ok true
       else Raise (WaiterError "TableExists" "Max attempts exceeded"), w') /\
    calls w'
    = calls w
      ++ DDB_CreateTable table_name [("file_hash", "HASH")] [("file_hash", "S")]
           (5, 5) [("Project", "Signal-iOS")]
         :: replicate (Nat.min (S (provisioning w)) max_attempts)
              (DDB_DescribeTable table_name) /\
    tables w' !! table_name
    = Some (Table "file_hash"
              (provisioning w - (Nat.min (S (provisioning w)) max_attempts - 1)) ∅).
Proof.
  intros Hnf Htab. rewrite create_file_metadata_table_run. cbv zeta.
  rewrite (create_table_absent _ _ _ _ _ "file_hash") by done.
  set (w1 := set_stdout _ _).
  destruct (wait_loop_run max_attempts table_name w1
              (Table "file_hash" (provisioning w) ∅))
    as (w2 & Hrun & Hcalls & _ & _ & Htab2).
  { by eapply no_faults_tail. }
  { subst w1. simpl. apply lookup_insert_eq. }
  unfold wait_table_exists. rewrite Hrun. cbn [ready_in key_attr items] in *.
  destruct (provisioning w <? max_attempts)%nat.
  - eexists. split; [done |]. simpl. rewrite Hcalls. subst w1. simpl.
    by rewrite <- app_assoc.
  - eexists. split; [done |]. rewrite Hcalls. subst w1. simpl.
    by rewrite <- app_assoc.
Qed.

(** Creating a table that exists, without network failures. *)
Lemma create_file_metadata_table_present table_name w :
  no_faults w -> is_Some (tables w !! table_name) ->
  create_file_metadata_table table_name w
  = (Ok true,
     set_stdout (stdout w ++ ["Table " +:+ table_name +:+ " already exists"])
       (sent (DDB_CreateTable table_name [("file_hash", "HASH")] [("file_hash", "S")]
                (5, 5) [("Project", "Signal-iOS")]) w)).
Proof.
  intros Hnf Htab. rewrite create_file_metadata_table_run. cbv zeta.
  by rewrite create_table_present.
Qed.

End provisioning.



(** Calling [create_file_metadata_table] twice in succession returns [True]
    both times. *)
Lemma create_table_twice table_name w :
  no_faults w -> tables w !! table_name = None ->
  (provisioning w < dynamodb.max_attempts)%nat ->
  exists w1 w2,
    create_file_metadata_table table_name w = (Ok true, w1) /\
    create_file_metadata_table table_name w1 = (Ok true, w2).
Proof.
  intros Hnf Htab Hlt.
  destruct (create_file_metadata_table_absent _ _ Hnf Htab) as (w1 & Hrun & Hcalls & Htab1).
  rewrite (proj2 (Nat.ltb_lt _ _) Hlt) in Hrun.
  exists w1. eexists. split; [done |].
  apply create_file_metadata_table_present; [| by rewrite Htab1].
  clear Htab1 Hcalls. revert Hrun. rewrite create_file_metadata_table_run. cbv zeta.
  rewrite (create_table_absent _ _ _ _ _ "file_hash") by done.
  set (w' := set_stdout _ _).
  destruct (wait_loop_run dynamodb.max_attempts table_name w'
              (Table "file_hash" (provisioning w) ∅))
    as (w2 & Hwait & _ & _ & Hnf2 & _).
  { by eapply no_faults_tail. }
  { subst w'. simpl. apply lookup_insert_eq. }
  unfold dynamodb.wait_table_exists. rewrite Hwait. cbn [ready_in].
  rewrite (proj2 (Nat.ltb_lt _ _) Hlt). by intros [= <-].
Qed.




(** ** The status of the records *)

Section statuses.

(** Computations that send nothing and leave the tables alone. *)
Lemma quiet_writes_only_uploaded {A} (m : M A) :
  (forall w, calls (snd (m w)) = calls w /\ tables (snd (m w)) = tables w) ->
  writes_only_uploaded m.
Proof.
  intros Hm w. destruct (Hm w) as [Hcalls Htables]. split.
  - exists []. by rewrite app_nil_r.
  - intros TableName k Item. unfold record. rewrite Htables. by left.
Qed.

Lemma bind_writes_only_uploaded {A B} (m : M A) (f : A -> M B) :
  writes_only_uploaded m -> (forall a, writes_only_uploaded (f a)) ->
  writes_only_uploaded (m ≫= f).
Proof.
  intros Hm Hf w. rewrite bind_run.
  destruct (Hm w) as [(new & Hcalls & Hnew) Hrec].
  destruct (m w) as [[a|e] w1]; simpl in *; [| by eauto].
  destruct (Hf a w1) as [(new' & Hcalls' & Hnew') Hrec']. split.
  - exists (new ++ new'). rewrite Hcalls', Hcalls, <- app_assoc.
    split; [done | by apply Forall_app].
  - intros TableName k Item HItem.
    destruct (Hrec' _ _ _ HItem) as [HItem1 | ?]; [by apply Hrec | by right].
Qed.

Lemma try_except_writes_only_uploaded {A} (body : M A) handler :
  writes_only_uploaded body -> (forall e, writes_only_uploaded (handler e)) ->
  writes_only_uploaded (try_except body handler).
Proof.
  intros Hm Hf w. rewrite try_except_run.
  destruct (Hm w) as [(new & Hcalls & Hnew) Hrec].
  destruct (body w) as [[a|e] w1]; simpl in *; [by eauto |].
  destruct (Hf e w1) as [(new' & Hcalls' & Hnew') Hrec']. split.
  - exists (new ++ new'). rewrite Hcalls', Hcalls, <- app_assoc.
    split; [done | by apply Forall_app].
  - intros TableName k Item HItem.
    destruct (Hrec' _ _ _ HItem) as [HItem1 | ?]; [by apply Hrec | by right].
Qed.

Lemma mret_writes_only_uploaded {A} (a : A) : writes_only_uploaded (mret a).
Proof. by apply quiet_writes_only_uploaded. Qed.

Lemma raise_writes_only_uploaded {A} e : writes_only_uploaded (@raise A e).
Proof. by apply quiet_writes_only_uploaded. Qed.

Lemma print_writes_only_uploaded s : writes_only_uploaded (print s).
Proof. by apply quiet_writes_only_uploaded. Qed.

Lemma open_rb_writes_only_uploaded path : writes_only_uploaded (open_rb path).
Proof.
  apply quiet_writes_only_uploaded. intros w. unfold open_rb.
  by destruct (files w !! path).
Qed.

Lemma sleep_writes_only_uploaded : writes_only_uploaded sleep.
Proof.
  intros w. split.
  - exists []. by rewrite app_nil_r.
  - intros TableName k Item. unfold record, sleep. simpl. rewrite lookup_fmap.
    destruct (tables w !! TableName); simpl; by left.
Qed.

(** A request writes only what its service writes. *)
Lemma request_writes_only_uploaded {A} c (serve : M A) :
  writes_uploaded c ->
  (forall w, calls (snd (serve w)) = calls w) ->
  (forall w TableName k (Item : item),
     record (snd (serve w)) TableName k = Some Item ->
     record w TableName k = Some Item \/ Item !! "status" = Some (AttrS "uploaded")) ->
  writes_only_uploaded (request c serve).
Proof.
  intros Hc Hcalls Hrec w. unfold request. split.
  - exists [c]. split; [| by apply Forall_singleton].
    destruct (head (faults w)) as [[e|]|]; simpl; by rewrite ?Hcalls.
  - intros TableName k Item.
    destruct (head (faults w)) as [[e|]|]; simpl; [by left | |];
      intros HItem; by apply Hrec in HItem.
Qed.

Lemma put_object_writes_only_uploaded Bucket Key Body ContentType :
  writes_only_uploaded (s3.put_object Bucket Key Body ContentType).
Proof.
  apply request_writes_only_uploaded; [done | |].
  - intros w. by destruct (buckets w !! Bucket).
  - intros w TableName k Item. destruct (buckets w !! Bucket); by left.
Qed.

Lemma describe_table_writes_only_uploaded TableName :
  writes_only_uploaded (dynamodb.describe_table TableName).
Proof.
  apply request_writes_only_uploaded; [done | |].
  - intros w. by destruct (tables w !! TableName).
  - intros w T k Item. destruct (tables w !! TableName); by left.
Qed.

Lemma create_table_writes_only_uploaded TableName KeySchema AttributeDefinitions
    ProvisionedThroughput Tags :
  writes_only_uploaded
    (dynamodb.create_table TableName KeySchema AttributeDefinitions
       ProvisionedThroughput Tags).
Proof.
  apply request_writes_only_uploaded; [done | |].
  - intros w. by destruct (tables w !! TableName), (dynamodb.hash_key KeySchema).
  - intros w T k Item.
    destruct (tables w !! TableName) eqn:Htab, (dynamodb.hash_key KeySchema);
      try by left.
    unfold record. simpl. destruct (decide (T = TableName)) as [-> | Hne].
    + by rewrite lookup_insert_eq.
    + rewrite lookup_insert_ne by done. by left.
Qed.

Lemma put_item_writes_only_uploaded TableName (Item : item) :
  Item !! "status" = Some (AttrS "uploaded") ->
  writes_only_uploaded (dynamodb.put_item TableName Item).
Proof.
  intros Hstatus. apply request_writes_only_uploaded; [done | |].
  - intros w.
    destruct (tables w !! TableName) as [t|]; [| done].
    by destruct (dynamodb.status_of t), (Item !! key_attr t) as [[k]|].
  - intros w T k Item'.
    destruct (tables w !! TableName) as [t|] eqn:Htab; [| by left].
    destruct (dynamodb.status_of t), (Item !! key_attr t) as [[k']|]; try by left.
    unfold record. simpl. destruct (decide (T = TableName)) as [-> | Hne].
    + rewrite lookup_insert_eq, Htab. simpl.
      destruct (decide (k = k')) as [-> | Hk].
      * rewrite lookup_insert_eq. intros [= <-]. by right.
      * rewrite lookup_insert_ne by done. by left.
    + rewrite lookup_insert_ne by done. by left.
Qed.

Lemma wait_loop_writes_only_uploaded n TableName :
  writes_only_uploaded (dynamodb.wait_loop n TableName).
Proof.
  induction n as [|n IH]; [apply raise_writes_only_uploaded |].
  assert (writes_only_uploaded
            match n with
            | O => raise (WaiterError "TableExists" "Max attempts exceeded")
            | S _ => sleep;; dynamodb.wait_loop n TableName
            end) as Hretry.
  { destruct n; [apply raise_writes_only_uploaded |].
    apply bind_writes_only_uploaded; [apply sleep_writes_only_uploaded | done]. }
  simpl. apply bind_writes_only_uploaded.
  - apply try_except_writes_only_uploaded.
    + apply bind_writes_only_uploaded;
        [apply describe_table_writes_only_uploaded |].
      intros st. apply mret_writes_only_uploaded.
    + intros []; try apply raise_writes_only_uploaded.
      apply mret_writes_only_uploaded.
  - intros [[] | [code message]]; try done.
    + apply mret_writes_only_uploaded.
    + destruct (String.eqb code _); [done | apply raise_writes_only_uploaded].
Qed.

Create HintDb uploaded.
Hint Resolve mret_writes_only_uploaded raise_writes_only_uploaded
  print_writes_only_uploaded open_rb_writes_only_uploaded
  put_object_writes_only_uploaded create_table_writes_only_uploaded
  wait_loop_writes_only_uploaded : uploaded.

Ltac uploaded :=
  repeat first
    [ progress auto with uploaded
    | apply bind_writes_only_uploaded
    | apply try_except_writes_only_uploaded
    | match goal with |- forall _, _ => intro end ].

Lemma calculate_file_hash_writes_only_uploaded file_path :
  writes_only_uploaded (calculate_file_hash file_path).
Proof. unfold calculate_file_hash. uploaded. Qed.

Lemma upload_to_s3_writes_only_uploaded file_path file_hash :
  writes_only_uploaded (upload_to_s3 file_path file_hash).
Proof. unfold upload_to_s3. uploaded. Qed.

Lemma store_in_dynamodb_writes_only_uploaded s3_key file_hash file_name :
  writes_only_uploaded (store_in_dynamodb s3_key file_hash file_name).
Proof.
  unfold store_in_dynamodb.
  apply try_except_writes_only_uploaded; [| uploaded].
  apply bind_writes_only_uploaded; [by apply quiet_writes_only_uploaded |].
  intros now. apply bind_writes_only_uploaded; [| uploaded].
  apply put_item_writes_only_uploaded, metadata_item_fields.
Qed.

Lemma main_writes_only_uploaded : writes_only_uploaded main.
Proof.
  unfold main, main_try, pipeline, create_test_image.
  pose proof calculate_file_hash_writes_only_uploaded.
  pose proof upload_to_s3_writes_only_uploaded.
  pose proof store_in_dynamodb_writes_only_uploaded.
  apply try_except_writes_only_uploaded; [| uploaded].
  apply bind_writes_only_uploaded; [| uploaded].
  apply bind_writes_only_uploaded; [by apply quiet_writes_only_uploaded | uploaded].
Qed.

Lemma create_file_metadata_table_writes_only_uploaded table_name :
  writes_only_uploaded (create_file_metadata_table table_name).
Proof.
  unfold create_file_metadata_table, dynamodb.wait_table_exists.
  apply try_except_writes_only_uploaded; [uploaded |].
  intros [| code message operation | |]; try apply raise_writes_only_uploaded.
  destruct (String.eqb code _); uploaded.
Qed.

End statuses.

(** C10. Whatever entry point of the scripts runs, and in whatever world,
    every request it sends that writes a metadata record writes it with the
    status ["uploaded"], and every record the tables hold afterwards was
    there before or has that status: no record is written with the status
    ["pending"] or ["failed"]. *)
Theorem only_uploaded_records (op : operation) (w : world) :
  (exists new,
     calls (snd (run op w)) = calls w ++ new /\
     Forall writes_uploaded new) /\
  (forall TableName k (Item : item),
     record (snd (run op w)) TableName k = Some Item ->
     record w TableName k = Some Item \/
     (Item !! "status" = Some (AttrS "uploaded") /\
      Item !! "status" <> Some (AttrS "pending") /\
      Item !! "status" <> Some (AttrS "failed"))).
Proof.
  assert (writes_only_uploaded (run op)) as Hop.
  { destruct op; simpl.
    - apply main_writes_only_uploaded.
    - apply bind_writes_only_uploaded; [| intros; apply mret_writes_only_uploaded].
      unfold create_test_image.
      apply bind_writes_only_uploaded;
        [by apply quiet_writes_only_uploaded | intros; apply mret_writes_only_uploaded].
    - apply bind_writes_only_uploaded; [| intros; apply mret_writes_only_uploaded].
      apply calculate_file_hash_writes_only_uploaded.
    - apply bind_writes_only_uploaded; [| intros; apply mret_writes_only_uploaded].
      apply upload_to_s3_writes_only_uploaded.
    - apply store_in_dynamodb_writes_only_uploaded.
    - apply bind_writes_only_uploaded; [| intros; apply mret_writes_only_uploaded].
      apply create_file_metadata_table_writes_only_uploaded. }
  destruct (Hop w) as [Hcalls Hrec]. split; [done |].
  intros TableName k Item HItem.
  destruct (Hrec _ _ _ HItem) as [? | Hstatus]; [by left | right].
  rewrite Hstatus. by repeat split.
Qed.

Lemma only_uploaded_records_witness :
  record (snd (run Op_main w0)) "SignalMetadata"
    "da319b0c8510aa315616a77e1d6009f36fd6ea18c588360a95892d0664a3bb57"
  ≫= (.!! "status") = Some (AttrS "uploaded").
Proof.
  destruct (record (snd (run Op_main w0)) "SignalMetadata"
              "da319b0c8510aa315616a77e1d6009f36fd6ea18c588360a95892d0664a3bb57")
    as [Item|] eqn:HItem; [| vm_compute in HItem; discriminate].
  destruct (proj2 (only_uploaded_records Op_main w0) _ _ _ HItem)
    as [Hold | [Hstatus _]]; [vm_compute in Hold; discriminate |].
  exact Hstatus.
Defined.

(** ** The configuration as shell assignments *)

Section config.

Lemma flatten_config_fold config parent_key sep :
  flatten_config config parent_key sep
  = fold_left (flatten_step parent_key sep) config [].
Proof.
  unfold flatten_config. simpl. generalize (@nil (string * atom)).
  induction config as [|[k v] rest IH]; intros items; [done |].
  simpl. destruct v as [a | entries]; apply IH.
Qed.

Lemma format_shell_from lines vars_dict prefix :
  fold_left (fun lines kv => lines ++ [shell_line prefix kv]) vars_dict lines
  = lines ++ map (shell_line prefix) vars_dict.
Proof.
  revert lines. induction vars_dict as [|kv rest IH]; intros lines; simpl.
  - by rewrite app_nil_r.
  - by rewrite IH, <- app_assoc.
Qed.

Lemma format_shell_map vars_dict prefix :
  format_shell vars_dict prefix = map (shell_line prefix) vars_dict.
Proof. apply (format_shell_from []). Qed.

(** The entries of a dict nested under a non-empty key [p] are named
    [p ++ sep ++ k]. *)
Lemma flatten_config_nested_leaf p sep k a :
  p <> "" ->
  flatten_config [(k, Leaf a)] p sep = [(p +:+ sep +:+ k, a)].
Proof. intros Hp. destruct p; [done |]. reflexivity. Qed.

End config.

(** C8. Flattening the nested config [{"s3": {"bucket": "x"}}] and
    formatting it for shell output gives exactly the assignment
    [S3_BUCKET='x']. *)
Theorem s3_bucket_assignment :
  format_shell (flatten_config [("s3", Dict [("bucket", Leaf (AStr "x"))])] "" "_") ""
  = ["S3_BUCKET='x'"] /\
  shell_lines [("s3", Dict [("bucket", Leaf (AStr "x"))])] = ["S3_BUCKET='x'"].
Proof. split; reflexivity. Qed.

(** The same for any section, key and string value: the name is the section
    and the key joined by an underscore, in upper case, and the value is put
    between single quotes. *)
Lemma nested_assignment section key x :
  section <> "" ->
  shell_lines [(section, Dict [(key, Leaf (AStr x))])]
  = [upper (section +:+ "_" +:+ key) +:+ "='" +:+ x +:+ "'"].
Proof.
  intros Hs. unfold shell_lines. rewrite format_shell_map, flatten_config_fold.
  unfold fold_left, flatten_step. cbn [fst snd truthy].
  by rewrite flatten_config_nested_leaf.
Qed.

(** C9. [flatten_config] is not injective: for a non-empty [p], the nested
    config [{p: {k: x}}] and the flat config [{p_k: x}] are different and
    flatten to the same dict; and in a config that holds both the nested
    path and the literal key, the one that comes first in the document is
    overwritten by the one that comes second: the result has a single entry,
    and the first value is lost. *)
Theorem flatten_config_not_injective (p k : string) (x y : atom) :
  p <> "" ->
  [(p, Dict [(k, Leaf x)])] <> [(p +:+ "_" +:+ k, Leaf x)] /\
  flatten_config [(p, Dict [(k, Leaf x)])] "" "_"
  = flatten_config [(p +:+ "_" +:+ k, Leaf x)] "" "_" /\
  flatten_config [(p, Dict [(k, Leaf x)]); (p +:+ "_" +:+ k, Leaf y)] "" "_"
  = [(p +:+ "_" +:+ k, y)] /\
  flatten_config [(p +:+ "_" +:+ k, Leaf y); (p, Dict [(k, Leaf x)])] "" "_"
  = [(p +:+ "_" +:+ k, x)].
Proof.
  intros Hp. split; [by intros [= _ ?] |].
  rewrite !flatten_config_fold. unfold fold_left, flatten_step. cbn [fst snd truthy].
  rewrite !flatten_config_nested_leaf by done. simpl.
  by rewrite String.eqb_refl.
Qed.

Lemma flatten_config_not_injective_witness :
  flatten_config [("a", Dict [("b", Leaf (AInt 1))])] "" "_"
  = flatten_config [("a_b", Leaf (AInt 1))] "" "_" /\
  flatten_config [("a", Dict [("b", Leaf (AInt 1))]); ("a_b", Leaf (AInt 2))] "" "_"
  = [("a_b", AInt 2)].
Proof.
  destruct (flatten_config_not_injective "a" "b" (AInt 1) (AInt 2) ltac:(discriminate))
    as (_ & Hsame & Hlost & _).
  split; [exact Hsame | exact Hlost].
Defined.

(** * Further properties of the scripts *)

(** ** The blocks of the hashing loop *)

Section blocks.

Lemma file_blocks_nil : file_blocks [] = [].
Proof. by rewrite file_blocks_equation_1. Qed.

Lemma file_blocks_cons (f : bytes) :
  f <> [] -> file_blocks f = take 4096 f :: file_blocks (drop 4096 f).
Proof.
  intros Hf. rewrite file_blocks_equation_1.
  destruct (decide (take 4096 f = [])) as [Hnil | Hne]; [| done].
  by destruct f.
Qed.

Lemma read_blocks_fold (f : bytes) : forall h,
  read_blocks f h = fold_left hashlib.update (file_blocks f) h.
Proof.
  remember (length f) as n eqn:Hn. revert f Hn.
  induction n as [n IH] using lt_wf_ind. intros f Hn h.
  rewrite read_blocks_equation_1.
  destruct (decide (take 4096 f = [])) as [Hnil | Hne]; simpl.
  - destruct f; [by rewrite file_blocks_nil | done].
  - rewrite file_blocks_cons by (by destruct f). simpl.
    apply (IH (length (drop 4096 f))); [| done].
    destruct f; [done |]. rewrite length_drop. subst n. simpl. lia.
Qed.

Lemma file_blocks_shape (f : bytes) :
  concat (file_blocks f) = f /\
  Forall (fun block => (1 <= length block <= 4096)%nat) (file_blocks f) /\
  length (file_blocks f) = ((length f + 4095) / 4096)%nat.
Proof.
  remember (length f) as n eqn:Hn. revert f Hn.
  induction n as [n IH] using lt_wf_ind. intros f Hn.
  destruct f as [|x f'] eqn:Hf.
  { rewrite file_blocks_nil. subst n. by repeat split. }
  rewrite <- Hf in *. assert (f <> []) as Hne by (by rewrite Hf).
  assert (1 <= length f)%nat as Hlen by (rewrite Hf; simpl; lia).
  rewrite file_blocks_cons by done.
  destruct (IH (length (drop 4096 f))) with (f := drop 4096 f)
    as (Hcat & Hall & Hcount); [rewrite length_drop; lia | done |].
  split; [| split].
  - simpl. by rewrite Hcat, take_drop.
  - constructor; [| done]. rewrite length_take. lia.
  - change (length (?b :: ?l)) with (S (length l)).
    rewrite Hcount, length_drop, <- Hn.
    destruct (decide (4096 <= n)%nat) as [Hge | Hlt].
    + replace (n + 4095)%nat with ((n - 4096 + 4095) + 1 * 4096)%nat by lia.
      rewrite Nat.div_add by lia. lia.
    + replace (n - 4096)%nat with O by lia.
      rewrite (Nat.div_small (0 + 4095)) by lia.
      apply (Nat.div_unique _ _ 1 (n - 1)); lia.
Qed.

End blocks.

(** X1. The loop of [calculate_file_hash] feeds the hash object the blocks
    that the iterator yields, in order; put end to end they are the file,
    none is empty, none is longer than 4096 bytes, and there are
    ceil(length / 4096) of them. *)
Theorem read_blocks_bounded (f : bytes) (sha256_hash : hashlib.sha256) :
  read_blocks f sha256_hash = fold_left hashlib.update (file_blocks f) sha256_hash /\
  concat (file_blocks f) = f /\
  Forall (fun block => (1 <= length block <= 4096)%nat) (file_blocks f) /\
  length (file_blocks f) = ((length f + 4095) / 4096)%nat.
Proof. split; [apply read_blocks_fold | apply file_blocks_shape]. Qed.

(** ** The shape of the fingerprint *)

Section fingerprint.
Import hashlib.

Lemma round_length v kw : length v = 8%nat -> length (round v kw) = 8%nat.
Proof.
  intros Hv. do 9 (destruct v as [|? v]; try discriminate). reflexivity.
Qed.

Lemma fold_round_length kws : forall v,
  length v = 8%nat -> length (fold_left round kws v) = 8%nat.
Proof.
  induction kws as [|kw kws IH]; intros v Hv; [done |].
  simpl. apply IH. by apply round_length.
Qed.

Lemma compress_length v block : length v = 8%nat -> length (compress v block) = 8%nat.
Proof.
  intros Hv. unfold compress. rewrite length_zip_with, fold_round_length, Hv; done.
Qed.

Lemma fold_compress_length blocks : forall v,
  length v = 8%nat -> length (fold_left compress blocks v) = 8%nat.
Proof.
  induction blocks as [|block blocks IH]; intros v Hv; [done |].
  simpl. apply IH. by apply compress_length.
Qed.

Lemma digest_length msg : length (SHA256.digest msg) = 32%nat.
Proof.
  unfold SHA256.digest.
  pose proof (fold_compress_length
                (SHA256.blocks (length (SHA256.padded msg)) (SHA256.padded msg)) H0 eq_refl)
    as Hlen.
  destruct (fold_left compress _ H0) as [|? v]; [discriminate |].
  do 8 (destruct v as [|? v]; try discriminate). reflexivity.
Qed.

Lemma byte_to_Z_range x : 0 <= byte_to_Z x < 256.
Proof.
  unfold byte_to_Z. pose proof (Byte.to_N_bounded x). lia.
Qed.

Lemma hex_digit_lower d : 0 <= d < 16 -> is_lower_hex (hex_digit d) = true.
Proof.
  intros Hd.
  assert (d = 0 \/ d = 1 \/ d = 2 \/ d = 3 \/ d = 4 \/ d = 5 \/ d = 6 \/ d = 7
          \/ d = 8 \/ d = 9 \/ d = 10 \/ d = 11 \/ d = 12 \/ d = 13 \/ d = 14
          \/ d = 15) as Hcases by lia.
  repeat destruct Hcases as [-> | Hcases]; try reflexivity. by subst.
Qed.

Lemma hex_shape bs :
  String.length (hex bs) = (2 * length bs)%nat /\
  string_forall is_lower_hex (hex bs) = true.
Proof.
  induction bs as [|x bs [IHlen IHall]]; [done |].
  pose proof (byte_to_Z_range x) as Hx. split.
  - simpl. rewrite IHlen. lia.
  - cbn [hex string_forall]. rewrite !hex_digit_lower, IHall; [done | |].
    + apply Z.mod_pos_bound. lia.
    + split; [apply Z.div_pos; lia | apply Z.div_lt_upper_bound; lia].
Qed.

End fingerprint.

(** X2. Whatever the file, the fingerprint [calculate_file_hash] returns is
    a string of exactly 64 characters, each a digit or a letter from [a] to
    [f]. *)
Theorem fingerprint_shape (w : world) (file_path file_hash : string) :
  fst (calculate_file_hash file_path w) = Ok file_hash ->
  String.length file_hash = 64%nat /\
  string_forall is_lower_hex file_hash = true.
Proof.
  rewrite calculate_file_hash_run.
  destruct (files w !! file_path) as [B|]; [| discriminate].
  intros [= <-]. unfold SHA256.hexdigest.
  destruct (hex_shape (SHA256.digest B)) as [Hlen Hall].
  by rewrite Hlen, digest_length.
Qed.

Lemma fingerprint_shape_witness :
  fst (calculate_file_hash "test.bin" w_hello)
  = Ok "b94d27b9934d3e08a52e52d7da7dabfac484efe37a5380ee9088f7ace2efcde9" /\
  String.length "b94d27b9934d3e08a52e52d7da7dabfac484efe37a5380ee9088f7ace2efcde9"
  = 64%nat.
Proof.
  assert (fst (calculate_file_hash "test.bin" w_hello)
          = Ok "b94d27b9934d3e08a52e52d7da7dabfac484efe37a5380ee9088f7ace2efcde9")
    as Hrun by (vm_compute; reflexivity).
  split; [exact Hrun |].
  exact (proj1 (fingerprint_shape _ _ _ Hrun)).
Defined.

(** ** The other ways a run of the pipeline ends *)



Section index_failure.

(** The outcome of [put_item] depends on the network and the tables only. *)
Lemma put_item_fst TableName (Item : item) w1 w2 :
  faults w1 = faults w2 -> tables w1 = tables w2 ->
  fst (dynamodb.put_item TableName Item w1) = fst (dynamodb.put_item TableName Item w2).
Proof.
  intros Hfaults Htables. rewrite !put_item_run. cbv zeta. rewrite Hfaults, Htables.
  destruct (head (faults w2)) as [[e|]|], (tables w2 !! TableName) as [t|]; try done;
    by destruct (dynamodb.status_of t), (Item !! key_attr t) as [[k]|].
Qed.

(** A run in which the upload succeeds and the write of the record fails. *)
Lemma pipeline_store_fails file_path w B e :
  let file_hash := SHA256.hexdigest B in
  let s3_key := S3_PREFIX +:+ file_hash +:+ "__" +:+ basename file_path in
  let Item := metadata_item s3_key file_hash (basename file_path)
                (isoformat (clock w (ticks w))) in
  files w !! file_path = Some B ->
  fst (s3.put_object S3_BUCKET s3_key B "image/heic" w) = Ok tt ->
  fst (dynamodb.put_item DYNAMODB_TABLE Item
         (snd (s3.put_object S3_BUCKET s3_key B "image/heic" w))) = Raise e ->
  exists objects w',
    buckets w !! S3_BUCKET = Some objects /\
    pipeline file_path w = (Raise e, w') /\
    files w' = files w /\ clock w' = clock w /\ ticks w' = S (ticks w) /\
    faults w' = tail (tail (faults w)) /\
    buckets w'
    = <[S3_BUCKET := <[s3_key := S3Object B "image/heic"]> objects]> (buckets w) /\
    tables w' = tables w /\
    calls w'
    = calls w ++ [S3_PutObject S3_BUCKET s3_key B "image/heic";
                  DDB_PutItem DYNAMODB_TABLE Item] /\
    stdout w'
    = stdout w ++ ["File hash (signature): " +:+ file_hash;
                   "Successfully uploaded to S3: " +:+ s3_key;
                   "Error storing in DynamoDB: " +:+ str_exn e].
Proof.
  intros file_hash s3_key Item HB Hput Hitem.
  rewrite pipeline_run, HB. cbv zeta. rewrite upload_to_s3_run. cbv zeta.
  change (files (set_stdout ?v w)) with (files w). rewrite HB, put_object_stdout.
  fold file_hash s3_key.
  destruct (s3.put_object S3_BUCKET s3_key B "image/heic" w) as [r w1] eqn:Hrun.
  cbn [fst snd] in *. subst r.
  apply put_object_returns in Hrun as (objects & Hobj & ->).
  rewrite store_in_dynamodb_run. cbv zeta. cbn [clock ticks set_stdout set_buckets sent
    set_faults set_calls]. fold Item.
  match goal with
  | |- context [dynamodb.put_item DYNAMODB_TABLE Item ?x] =>
      destruct (dynamodb.put_item DYNAMODB_TABLE Item x) as [r w2] eqn:Hrun;
      assert (r = Raise e) as ->
        by (rewrite <- Hitem; change r with (fst (r, w2)); rewrite <- Hrun;
            by apply put_item_fst)
  end.
  apply put_item_raises in Hrun as ->.
  exists objects. eexists. split; [done |]. split; [done |].
  simpl. repeat split; by rewrite <- ?app_assoc.
Qed.

End index_failure.

(** X4. When the upload succeeds and the write of the record fails with
    [e], the run fails with [e]; the object is in the bucket under its key,
    the tables are what they were, and each of the two requests was sent
    once: an object without a record is what is left. *)
Theorem index_failure_leaves_object (w : world) (file_path : string) (B : bytes)
    (e : exn) :
  let file_hash := SHA256.hexdigest B in
  let s3_key := S3_PREFIX +:+ file_hash +:+ "__" +:+ basename file_path in
  let Item := metadata_item s3_key file_hash (basename file_path)
                (isoformat (clock w (ticks w))) in
  files w !! file_path = Some B ->
  fst (s3.put_object S3_BUCKET s3_key B "image/heic" w) = Ok tt ->
  fst (dynamodb.put_item DYNAMODB_TABLE Item
         (snd (s3.put_object S3_BUCKET s3_key B "image/heic" w))) = Raise e ->
  fst (pipeline file_path w) = Raise e /\
  stored_object (snd (pipeline file_path w)) S3_BUCKET s3_key
  = Some (S3Object B "image/heic") /\
  tables (snd (pipeline file_path w)) = tables w /\
  calls (snd (pipeline file_path w))
  = calls w ++ [S3_PutObject S3_BUCKET s3_key B "image/heic";
                DDB_PutItem DYNAMODB_TABLE Item].
Proof.
  intros file_hash s3_key Item HB Hput Hitem.
  destruct (pipeline_store_fails _ _ _ _ HB Hput Hitem)
    as (objects & w' & _ & -> & _ & _ & _ & _ & Hbuckets & Htables & Hcalls & _).
  cbn [fst snd]. split; [done |]. split; [| by split].
  unfold stored_object. rewrite Hbuckets, lookup_insert_eq. apply lookup_insert_eq.
Qed.

Lemma index_failure_leaves_object_witness :
  fst (pipeline "test.bin"
         (set_faults [None; Some (BotoCoreError "Read timeout on endpoint URL")] w_hello))
  = Raise (BotoCoreError "Read timeout on endpoint URL") /\
  tables (snd (pipeline "test.bin"
                 (set_faults [None; Some (BotoCoreError "Read timeout on endpoint URL")]
                    w_hello)))
  = tables w_hello.
Proof.
  pose proof (index_failure_leaves_object
                (set_faults [None; Some (BotoCoreError "Read timeout on endpoint URL")]
                   w_hello)
                "test.bin" (bytes_lit "hello world")
                (BotoCoreError "Read timeout on endpoint URL")) as H.
  cbv zeta in H.
  destruct H as (Hfail & _ & Htables & _);
    [vm_compute; reflexivity | vm_compute; reflexivity | vm_compute; reflexivity |].
  split; [exact Hfail | exact Htables].
Defined.

(** X5. Recovery from that failure.  When the network fails the write of
    the record once and the services are otherwise in place, the first run
    fails and leaves the index as it was; the same run again succeeds, puts
    the same object again, and leaves under the fingerprint the record of the
    second run. *)
Theorem index_failure_recovery (w : world) (file_path : string) (B : bytes)
    (e : exn) (rest : list (option exn)) :
  let file_hash := SHA256.hexdigest B in
  let s3_key := S3_PREFIX +:+ file_hash +:+ "__" +:+ basename file_path in
  files w !! file_path = Some B ->
  faults w = None :: Some e :: rest ->
  Forall (fun f => f = None) rest ->
  is_Some (buckets w !! S3_BUCKET) ->
  (exists t, tables w !! DYNAMODB_TABLE = Some t
             /\ key_attr t = "file_hash" /\ ready_in t = O) ->
  exists w1 w2,
    pipeline file_path w = (Raise e, w1) /\
    pipeline file_path w1 = (Ok tt, w2) /\
    tables w1 = tables w /\
    stored_object w1 S3_BUCKET s3_key = Some (S3Object B "image/heic") /\
    buckets w2 = buckets w1 /\
    record w2 DYNAMODB_TABLE file_hash
    = Some (metadata_item s3_key file_hash (basename file_path)
              (isoformat (clock w (S (ticks w))))).
Proof.
  intros file_hash s3_key HB Hfaults Hrest [objects Hobj] (t & Htab & Hkey & Hready).
  destruct (pipeline_store_fails file_path w B e HB)
    as (objects' & w1 & Hobj' & Hrun1 & Hfiles1 & Hclock1 & Hticks1 & Hfaults1
        & Hbuckets1 & Htables1 & _).
  { rewrite put_object_run. cbv zeta. by rewrite Hfaults, Hobj. }
  { rewrite put_object_run, put_item_run. cbv zeta. rewrite Hfaults, Hobj. simpl.
    by rewrite Hfaults. }
  cbv zeta in *. fold file_hash s3_key in Hbuckets1.
  assert (objects' = objects) as -> by congruence.
  assert (ready w1) as Hready1.
  { split; [| split].
    - unfold no_faults. by rewrite Hfaults1, Hfaults.
    - rewrite Hbuckets1, lookup_insert_eq. eauto.
    - exists t. by rewrite Htables1. }
  assert (files w1 !! file_path = Some B) as HB1 by (by rewrite Hfiles1).
  destruct (pipeline_ready _ _ _ HB1 Hready1) as [w2 Hrun2].
  pose proof Hrun2 as Hinv.
  apply pipeline_returns in Hinv
    as (B2 & objects2 & t2 & k2 & HB2 & Hobj2 & Htab2 & _ & Hkey2 & _ & _ & _ & _
        & Hbuckets2 & Htables2 & _).
  cbv zeta in *.
  assert (B2 = B) as -> by congruence.
  rewrite Hbuckets1, lookup_insert_eq in Hobj2. injection Hobj2 as <-.
  rewrite Htables1, Htab in Htab2. injection Htab2 as <-.
  rewrite Hkey, (proj1 (metadata_item_fields _ _ _ _)) in Hkey2. injection Hkey2 as <-.
  rewrite Hclock1, Hticks1 in Htables2. fold file_hash s3_key in Htables2, Hbuckets2.
  exists w1, w2. split; [done |]. split; [done |]. split; [done |].
  split; [unfold stored_object; rewrite Hbuckets1, lookup_insert_eq;
          apply lookup_insert_eq |].
  split; [by rewrite Hbuckets2, Hbuckets1, !insert_insert_eq |].
  unfold record. rewrite Htables2, lookup_insert_eq. apply lookup_insert_eq.
Qed.

Lemma index_failure_recovery_witness :
  fst (pipeline "test.bin"
         (set_faults [None; Some (BotoCoreError "Read timeout on endpoint URL")] w_hello))
  = Raise (BotoCoreError "Read timeout on endpoint URL") /\
  fst (pipeline "test.bin"
         (snd (pipeline "test.bin"
                 (set_faults [None; Some (BotoCoreError "Read timeout on endpoint URL")]
                    w_hello))))
  = Ok tt.
Proof.
  destruct (index_failure_recovery
              (set_faults [None; Some (BotoCoreError "Read timeout on endpoint URL")]
                 w_hello)
              "test.bin" (bytes_lit "hello world")
              (BotoCoreError "Read timeout on endpoint URL") [])
    as (w1 & w2 & Hrun1 & Hrun2 & _).
  - vm_compute. reflexivity.
  - reflexivity.
  - constructor.
  - eexists. vm_compute. reflexivity.
  - eexists. split; [vm_compute; reflexivity | by split].
  - rewrite Hrun1. cbn [fst snd]. by rewrite Hrun2.
Defined.

(** ** One content under two names *)

Lemma append_inv_head (s a c : string) : s +:+ a = s +:+ c -> a = c.
Proof. induction s as [|x s IH]; [done |]. intros [= H]. by apply IH. Qed.

(** X6. The storage key carries the file name and the key of the index does
    not: when the same bytes are ingested from two files whose base names
    differ, the bucket ends up holding the bytes twice, under two keys, and
    the index holds one record for them, that of the second run, which names
    the second key only. *)
Theorem same_bytes_two_names (w : world) (path1 path2 : string) (B : bytes) :
  let file_hash := SHA256.hexdigest B in
  let key1 := S3_PREFIX +:+ file_hash +:+ "__" +:+ basename path1 in
  let key2 := S3_PREFIX +:+ file_hash +:+ "__" +:+ basename path2 in
  files w !! path1 = Some B ->
  files w !! path2 = Some B ->
  basename path1 <> basename path2 ->
  ready w ->
  exists w1 w2,
    pipeline path1 w = (Ok tt, w1) /\
    pipeline path2 w1 = (Ok tt, w2) /\
    key1 <> key2 /\
    stored_object w2 S3_BUCKET key1 = Some (S3Object B "image/heic") /\
    stored_object w2 S3_BUCKET key2 = Some (S3Object B "image/heic") /\
    record w2 DYNAMODB_TABLE file_hash
    = Some (metadata_item key2 file_hash (basename path2)
              (isoformat (clock w (S (ticks w))))).
Proof.
  intros file_hash key1 key2 HB1 HB2 Hnames Hready.
  assert (key1 <> key2) as Hkeys.
  { unfold key1, key2. intros Heq. by do 3 apply append_inv_head in Heq. }
  destruct (pipeline_ready _ _ _ HB1 Hready) as [w1 Hrun1].
  destruct Hready as (Hnf & _ & t0 & Htab0 & Hkey0 & Hready0).
  pose proof Hrun1 as Hinv1.
  apply pipeline_returns in Hinv1
    as (B1 & objects & t & k & HB1' & Hobj & Htab & _ & Hkey & Hfiles1 & Hclock1
        & Hticks1 & Hfaults1 & Hbuckets1 & Htables1 & _).
  cbv zeta in *.
  assert (B1 = B) as -> by congruence.
  assert (t = t0) as -> by congruence.
  rewrite Hkey0 in Hkey, Htables1.
  rewrite (proj1 (metadata_item_fields _ _ _ _)) in Hkey. injection Hkey as <-.
  fold file_hash key1 in Htables1, Hbuckets1.
  assert (ready w1) as Hready1.
  { split; [| split].
    - unfold no_faults in *. rewrite Hfaults1.
      destruct (faults w) as [|f [|f' fs]]; simpl; try done.
      by apply Forall_cons in Hnf as [_ [_ ?]%Forall_cons].
    - rewrite Hbuckets1, lookup_insert_eq. eauto.
    - eexists. rewrite Htables1, lookup_insert_eq. eauto. }
  assert (files w1 !! path2 = Some B) as HB2' by (by rewrite Hfiles1).
  destruct (pipeline_ready _ _ _ HB2' Hready1) as [w2 Hrun2].
  pose proof Hrun2 as Hinv2.
  apply pipeline_returns in Hinv2
    as (B2 & objects2 & t2 & k2 & HB2'' & Hobj2 & Htab2 & _ & Hkey2 & _ & _ & _ & _
        & Hbuckets2 & Htables2 & _).
  cbv zeta in *.
  assert (B2 = B) as -> by congruence.
  rewrite Hbuckets1, lookup_insert_eq in Hobj2. injection Hobj2 as <-.
  rewrite Htables1, lookup_insert_eq in Htab2. injection Htab2 as <-.
  simpl in Hkey2, Htables2.
  rewrite (proj1 (metadata_item_fields _ _ _ _)) in Hkey2. injection Hkey2 as <-.
  rewrite Hclock1, Hticks1 in Htables2. fold file_hash key2 in Htables2, Hbuckets2.
  exists w1, w2. split; [done |]. split; [done |]. split; [done |].
  split; [unfold stored_object; rewrite Hbuckets2, lookup_insert_eq;
          rewrite lookup_insert_ne by done; apply lookup_insert_eq |].
  split; [unfold stored_object; rewrite Hbuckets2, lookup_insert_eq;
          apply lookup_insert_eq |].
  unfold record. rewrite Htables2, lookup_insert_eq. apply lookup_insert_eq.
Qed.

Lemma same_bytes_two_names_witness :
  fst (pipeline "a/test.bin"
         (set_files {[ "a/test.bin" := bytes_lit "hello world";
                       "b/copy.bin" := bytes_lit "hello world" ]} w0)) = Ok tt /\
  fst (pipeline "b/copy.bin"
         (snd (pipeline "a/test.bin"
                 (set_files {[ "a/test.bin" := bytes_lit "hello world";
                               "b/copy.bin" := bytes_lit "hello world" ]} w0)))) = Ok tt.
Proof.
  destruct (same_bytes_two_names
              (set_files {[ "a/test.bin" := bytes_lit "hello world";
                            "b/copy.bin" := bytes_lit "hello world" ]} w0)
              "a/test.bin" "b/copy.bin" (bytes_lit "hello world"))
    as (w1 & w2 & Hrun1 & Hrun2 & _).
  - vm_compute. reflexivity.
  - vm_compute. reflexivity.
  - vm_compute. discriminate.
  - split; [constructor | split].
    + eexists. vm_compute. reflexivity.
    + eexists. split; [vm_compute; reflexivity | by split].
  - rewrite Hrun1. cbn [fst snd]. by rewrite Hrun2.
Defined.

(** ** What provisioning leaves alone *)

Section preserving.
Context {A B : Type}.

Lemma preserves_bind P (m : M A) (f : A -> M B) :
  preserves P m -> (forall a, preserves P (f a)) -> preserves P (m ≫= f).
Proof.
  intros Hm Hf w HP. rewrite bind_run. specialize (Hm w HP).
  destruct (m w) as [[a|e] w1]; [by apply Hf | done].
Qed.

Lemma preserves_try_except P (body : M A) handler :
  preserves P body -> (forall e, preserves P (handler e)) ->
  preserves P (try_except body handler).
Proof.
  intros Hm Hf w HP. rewrite try_except_run. specialize (Hm w HP).
  destruct (body w) as [[a|e] w1]; [done | by apply Hf].
Qed.

Lemma preserves_mret P (a : A) : preserves P (mret a).
Proof. by intros w. Qed.

Lemma preserves_raise P e : preserves P (@raise A e).
Proof. by intros w. Qed.

End preserving.

Section provisioning_frame.
Import dynamodb.
Variable P : world -> Prop.
Variable table_name : string.
Hypothesis P_print : forall v w, P w -> P (set_stdout v w).
Hypothesis P_sent : forall c w, P w -> P (sent c w).
Hypothesis P_create :
  forall t w, P w -> P (set_tables (<[table_name := t]> (tables w)) w).
Hypothesis P_sleep : forall w, P w -> P (snd (sleep w)).

Lemma preserves_print s : preserves P (print s).
Proof. intros w. apply P_print. Qed.

Lemma preserves_request {A} c (serve : M A) :
  preserves P serve -> preserves P (request c serve).
Proof.
  intros Hserve w HP. unfold request.
  destruct (head (faults w)) as [[e|]|]; [by apply P_sent | |];
    by apply Hserve, P_sent.
Qed.

Lemma preserves_create_table KeySchema AttributeDefinitions ProvisionedThroughput Tags :
  preserves P (create_table table_name KeySchema AttributeDefinitions
                 ProvisionedThroughput Tags).
Proof.
  apply preserves_request. intros w HP.
  destruct (tables w !! table_name), (hash_key KeySchema); try done.
  by apply P_create.
Qed.

Lemma preserves_describe_table : preserves P (describe_table table_name).
Proof.
  apply preserves_request. intros w HP. by destruct (tables w !! table_name).
Qed.

Lemma preserves_wait_loop n : preserves P (wait_loop n table_name).
Proof.
  induction n as [|n IH]; [apply preserves_raise |].
  assert (preserves P
            match n with
            | O => raise (WaiterError "TableExists" "Max attempts exceeded")
            | S _ => sleep;; wait_loop n table_name
            end) as Hretry.
  { destruct n; [apply preserves_raise |].
    apply preserves_bind; [exact P_sleep | done]. }
  simpl. apply preserves_bind.
  - apply preserves_try_except.
    + apply preserves_bind; [apply preserves_describe_table |].
      intros st. apply preserves_mret.
    + intros []; try apply preserves_raise. apply preserves_mret.
  - intros [[] | [code message]]; try done.
    + apply preserves_mret.
    + destruct (String.eqb code _); [done | apply preserves_raise].
Qed.

Lemma preserves_create_file_metadata_table :
  preserves P (create_file_metadata_table table_name).
Proof.
  unfold create_file_metadata_table, wait_table_exists.
  apply preserves_try_except.
  - repeat first
      [ apply preserves_create_table | apply preserves_print
      | apply preserves_wait_loop | apply preserves_mret
      | apply preserves_bind | intros _ ].
  - intros [| code message operation | |]; try apply preserves_raise.
    destruct (String.eqb code _);
      (apply preserves_bind; [apply preserves_print | intros _; apply preserves_mret]).
Qed.

End provisioning_frame.

(** Provisioning one table leaves the files, the buckets and the clock as
    they are, and does not create a table of another name. *)
Lemma create_file_metadata_table_frame table_name w :
  let w' := snd (create_file_metadata_table table_name w) in
  files w' = files w /\ buckets w' = buckets w /\
  clock w' = clock w /\ ticks w' = ticks w /\
  (no_faults w -> no_faults w') /\
  (forall other, other <> table_name ->
     tables w !! other = None -> tables w' !! other = None).
Proof.
  cbv zeta. split_and!.
  - apply (preserves_create_file_metadata_table (fun x => files x = files w)); done.
  - apply (preserves_create_file_metadata_table (fun x => buckets x = buckets w)); done.
  - apply (preserves_create_file_metadata_table (fun x => clock x = clock w)); done.
  - apply (preserves_create_file_metadata_table (fun x => ticks x = ticks w)); done.
  - apply (preserves_create_file_metadata_table no_faults table_name); try done.
    + intros c x Hx. by eapply no_faults_tail.
  - intros other Hother.
    apply (preserves_create_file_metadata_table
             (fun x => tables x !! other = None) table_name); try done.
    + intros t x Hx. simpl. by rewrite lookup_insert_ne.
    + intros x Hx. simpl. by rewrite lookup_fmap, Hx.
Qed.

(** X7. The table that [create-dynamodb-table.py] provisions is not the
    table that [test-aws-upload.py] writes to: in an account that has no
    table named [DYNAMODB_TABLE], the provisioning script leaves it without
    one, whatever happens, and no run of the pipeline after it succeeds.  With
    the bucket in place and no network failure, the upload script then puts
    its object and fails on the record with ResourceNotFoundException. *)
Theorem provisioned_table_is_not_the_index (w : world) :
  tables w !! DYNAMODB_TABLE = None ->
  let w1 := snd (create_dynamodb_table_main w) in
  tables w1 !! DYNAMODB_TABLE = None /\
  (forall file_path, fst (pipeline file_path w1) <> Ok tt) /\
  (no_faults w -> is_Some (buckets w !! S3_BUCKET) ->
   fst (main_try w1)
   = Raise (ClientError "ResourceNotFoundException" "Requested resource not found"
              "PutItem") /\
   is_Some (stored_object (snd (main_try w1)) S3_BUCKET
              (S3_PREFIX +:+ SHA256.hexdigest (bytes_lit "Test image content")
               +:+ "__" +:+ "test_image.heic"))).
Proof.
  intros Habsent. cbv zeta. unfold create_dynamodb_table_main.
  destruct (create_file_metadata_table_frame TABLE_NAME w)
    as (_ & Hbuckets & _ & _ & Hnf & Hother).
  assert (tables (snd (create_file_metadata_table TABLE_NAME w)) !! DYNAMODB_TABLE = None)
    as Habsent1 by (by apply Hother).
  set (w1 := snd (create_file_metadata_table TABLE_NAME w)) in *.
  split; [done |]. split.
  - intros file_path Hrun.
    destruct (pipeline file_path w1) as [r w2] eqn:Hp. cbn [fst] in Hrun. subst r.
    apply pipeline_returns in Hp as (? & ? & t & ? & _ & _ & Htab & _). congruence.
  - intros Hnf0 [objects Hobj]. specialize (Hnf Hnf0).
    rewrite main_try_run. set (w2 := set_stdout _ _).
    assert (no_faults w2) as Hnf2 by done.
    assert (buckets w2 !! S3_BUCKET = Some objects) as Hobj2
      by (subst w2; simpl; by rewrite Hbuckets).
    destruct (pipeline_store_fails "test_image.heic" w2
                (bytes_lit "Test image content")
                (ClientError "ResourceNotFoundException" "Requested resource not found"
                   "PutItem"))
      as (objects' & w3 & _ & -> & _ & _ & _ & _ & Hbuckets3 & _).
    + subst w2. simpl. apply lookup_insert_eq.
    + unfold s3.put_object. rewrite request_no_fault by done.
      change (buckets (sent ?c w2)) with (buckets w2). by rewrite Hobj2.
    + unfold s3.put_object. rewrite request_no_fault by done.
      change (buckets (sent ?c w2)) with (buckets w2). rewrite Hobj2. cbn [snd].
      unfold dynamodb.put_item. rewrite request_no_fault by (by eapply no_faults_tail).
      simpl. by rewrite Habsent1.
    + cbn [fst snd]. split; [done |].
      unfold stored_object. rewrite Hbuckets3, lookup_insert_eq.
      change (basename "test_image.heic") with "test_image.heic".
      rewrite lookup_insert_eq. eauto.
Qed.

Lemma provisioned_table_is_not_the_index_witness :
  tables w_slow !! DYNAMODB_TABLE = None /\
  tables (snd (create_dynamodb_table_main w_slow)) !! DYNAMODB_TABLE = None.
Proof.
  assert (tables w_slow !! DYNAMODB_TABLE = None) as Habsent by (vm_compute; reflexivity).
  split; [exact Habsent |].
  pose proof (provisioned_table_is_not_the_index w_slow Habsent) as H. cbv zeta in H.
  exact (proj1 H).
Defined.





Section refusals.
Import dynamodb.

Lemma create_table_raises TableName KeySchema AttributeDefinitions ProvisionedThroughput
    Tags w e w' :
  create_table TableName KeySchema AttributeDefinitions ProvisionedThroughput Tags w
  = (Raise e, w') ->
  w' = sent (DDB_CreateTable TableName KeySchema AttributeDefinitions
               ProvisionedThroughput Tags) w.
Proof.
  unfold create_table, request.
  destruct (head (faults w)) as [[e'|]|]; simpl;
    destruct (tables w !! TableName), (hash_key KeySchema); congruence.
Qed.

End refusals.

(** X10. [create_file_metadata_table] returns [False] in one case only: the
    creation request itself failed with a [ClientError] whose code is not
    ResourceInUseException.  Then that request is all it has sent, and the
    tables are what they were: it never returns [False] for a table it has
    created. *)
Theorem false_means_creation_refused (table_name : string) (w : world) :
  fst (create_file_metadata_table table_name w) = Ok false ->
  (exists code message operation,
     fst (dynamodb.create_table table_name [("file_hash", "HASH")] [("file_hash", "S")]
            (5, 5) [("Project", "Signal-iOS")] w)
     = Raise (ClientError code message operation) /\
     code <> "ResourceInUseException") /\
  calls (snd (create_file_metadata_table table_name w))
  = calls w ++ [DDB_CreateTable table_name [("file_hash", "HASH")] [("file_hash", "S")]
                  (5, 5) [("Project", "Signal-iOS")]] /\
  tables (snd (create_file_metadata_table table_name w)) = tables w.
Proof.
  rewrite create_file_metadata_table_run. cbv zeta.
  destruct (dynamodb.create_table _ _ _ _ _ w) as [[[]|e] w1] eqn:Hcreate.
  - destruct (dynamodb.wait_table_exists _ _) as [[[]|e] w2] eqn:Hwait; [done |].
    pose proof (wait_table_exists_raises _ _ _ _ Hwait) as He. clear Hwait.
    destruct e as [| code message operation | |]; try done.
    by destruct (He code message operation).
  - apply create_table_raises in Hcreate as ->.
    destruct e as [| code message operation | |]; try done.
    destruct (String.eqb_spec code "ResourceInUseException") as [-> | Hcode]; [done |].
    intros _. split; [by eexists _, _, _ | done].
Qed.

Lemma false_means_creation_refused_witness :
  fst (create_file_metadata_table TABLE_NAME
         (set_faults [Some (ClientError "AccessDeniedException" "not authorized"
                              "CreateTable")] w0)) = Ok false /\
  tables (snd (create_file_metadata_table TABLE_NAME
                 (set_faults [Some (ClientError "AccessDeniedException" "not authorized"
                                      "CreateTable")] w0)))
  = tables w0.
Proof.
  assert (fst (create_file_metadata_table TABLE_NAME
                 (set_faults [Some (ClientError "AccessDeniedException" "not authorized"
                                      "CreateTable")] w0)) = Ok false) as Hrun
    by (vm_compute; reflexivity).
  split; [exact Hrun |].
  exact (proj2 (proj2 (false_means_creation_refused _ _ Hrun))).
Defined.

(** ** Python dicts as ordered entries *)

Section pydict_facts.
Context {V : Type}.
Implicit Types (d items : pydict V) (k : string) (v : V).

Lemma dict_update_nil items : dict_update items [] = items.
Proof. reflexivity. Qed.

Lemma dict_update_cons items k v d :
  dict_update items ((k, v) :: d) = dict_update (dict_set items k v) d.
Proof. reflexivity. Qed.

Lemma dict_update_app items d1 d2 :
  dict_update items (d1 ++ d2) = dict_update (dict_update items d1) d2.
Proof. unfold dict_update. apply fold_left_app. Qed.

Lemma dict_get_set d k v k' :
  dict_get (dict_set d k v) k' = if String.eqb k k' then Some v else dict_get d k'.
Proof.
  induction d as [|[k0 v0] d IH]; simpl.
  - done.
  - destruct (String.eqb_spec k0 k) as [-> | Hne]; simpl.
    + by destruct (String.eqb k k').
    + destruct (String.eqb_spec k0 k') as [-> | Hne'].
      * by rewrite (proj2 (String.eqb_neq _ _)) by done.
      * done.
Qed.

Lemma dict_set_keys d k v :
  map fst (dict_set d k v)
  = match dict_get d k with
    | Some _ => map fst d
    | None => map fst d ++ [k]
    end.
Proof.
  induction d as [|[k0 v0] d IH]; simpl; [done |].
  destruct (String.eqb_spec k0 k) as [-> | Hne]; simpl; [done |].
  rewrite IH. by destruct (dict_get d k).
Qed.

Lemma dict_get_None d k : dict_get d k = None <-> k ∉ map fst d.
Proof.
  induction d as [|[k0 v0] d IH]; simpl.
  - split; [intros _; apply not_elem_of_nil | done].
  - rewrite not_elem_of_cons.
    destruct (String.eqb_spec k0 k) as [-> | Hne]; [by split; [| intros []] |].
    rewrite IH. split; [by split | by intros []].
Qed.

Lemma dict_set_NoDup d k v : NoDup (map fst d) -> NoDup (map fst (dict_set d k v)).
Proof.
  intros Hd. rewrite dict_set_keys.
  destruct (dict_get d k) eqn:Hget; [done |].
  apply NoDup_app. split; [done |]. split; [| apply NoDup_singleton].
  intros x Hx ->%list_elem_of_singleton. by apply dict_get_None in Hget.
Qed.

Lemma dict_update_NoDup d items :
  NoDup (map fst items) -> NoDup (map fst (dict_update items d)).
Proof.
  revert items. induction d as [|[k v] d IH]; intros items Hitems; [done |].
  rewrite dict_update_cons. by apply IH, dict_set_NoDup.
Qed.

Lemma dict_set_set d k v0 v : dict_set (dict_set d k v0) k v = dict_set d k v.
Proof.
  induction d as [|[k0 v1] d IH]; simpl.
  - by rewrite String.eqb_refl.
  - destruct (String.eqb_spec k0 k) as [-> | Hne]; simpl.
    + by rewrite String.eqb_refl.
    + rewrite (proj2 (String.eqb_neq _ _)) by done. by rewrite IH.
Qed.

(** Overwriting a key that is there commutes with setting another key. *)
Lemma dict_set_comm d k v k' v' :
  dict_get d k <> None -> k <> k' ->
  dict_set (dict_set d k' v') k v = dict_set (dict_set d k v) k' v'.
Proof.
  intros Hin Hne. induction d as [|[k0 v0] d IH]; simpl in *; [done |].
  destruct (String.eqb_spec k0 k) as [-> | Hk].
  - rewrite (proj2 (String.eqb_neq _ _)) by done. simpl.
    rewrite String.eqb_refl. by rewrite (proj2 (String.eqb_neq _ _)) by done.
  - destruct (String.eqb_spec k0 k') as [-> | Hk']; simpl.
    + rewrite (proj2 (String.eqb_neq _ _)) by done. by rewrite String.eqb_refl.
    + rewrite !(proj2 (String.eqb_neq _ _)) by done. by rewrite IH.
Qed.

Lemma dict_update_set_present d : forall items k v,
  dict_get items k <> None -> dict_get d k = None ->
  dict_set (dict_update items d) k v = dict_update (dict_set items k v) d.
Proof.
  induction d as [|[k0 v0] d IH]; intros items k v Hin Hout; [done |].
  simpl in Hout. destruct (String.eqb_spec k0 k) as [-> | Hne]; [done |].
  rewrite !dict_update_cons, IH; [| | done].
  - by rewrite dict_set_comm.
  - rewrite dict_get_set. by rewrite (proj2 (String.eqb_neq _ _)) by done.
Qed.

(** Updating with a dict in which a key was set is updating with the dict
    and setting the key afterwards. *)
Lemma dict_update_set d : forall items k v,
  NoDup (map fst d) ->
  dict_update items (dict_set d k v) = dict_set (dict_update items d) k v.
Proof.
  induction d as [|[k0 v0] d IH]; intros items k v Hd; [done |].
  apply NoDup_cons in Hd as [Hk0 Hd]. simpl.
  destruct (String.eqb_spec k0 k) as [-> | Hne].
  - rewrite !dict_update_cons, dict_update_set_present.
    + by rewrite dict_set_set.
    + rewrite dict_get_set. by rewrite String.eqb_refl.
    + by apply dict_get_None.
  - rewrite !dict_update_cons. by apply IH.
Qed.

(** Updating with the dict built from a list of entries is setting the
    entries one after the other. *)
Lemma dict_update_built d : forall items,
  dict_update items (dict_update [] d) = dict_update items d.
Proof.
  induction d as [|[k v] d IH] using rev_ind; intros items; [done |].
  rewrite !dict_update_app, !dict_update_cons, !dict_update_nil.
  rewrite dict_update_set by (apply dict_update_NoDup, NoDup_nil_2).
  by rewrite IH.
Qed.

(** In a dict built from a list of entries, the last entry of a key wins. *)
Lemma dict_get_update d : forall items k,
  dict_get (dict_update items d) k
  = match dict_get (rev d) k with
    | Some v => Some v
    | None => dict_get items k
    end.
Proof.
  induction d as [|[k0 v0] d IH] using rev_ind; intros items k; [done |].
  rewrite dict_update_app, dict_update_cons, dict_update_nil, rev_unit.
  rewrite dict_get_set. simpl. destruct (String.eqb k0 k); [done | apply IH].
Qed.

(** Entries with distinct keys are a dict as they stand. *)
Lemma dict_update_distinct d : forall items,
  NoDup (map fst (items ++ d)) -> dict_update items d = items ++ d.
Proof.
  induction d as [|[k v] d IH]; intros items Hnd; [by rewrite app_nil_r |].
  rewrite dict_update_cons.
  assert (dict_set items k v = items ++ [(k, v)]) as ->.
  { rewrite map_app in Hnd. apply NoDup_app in Hnd as (_ & Hdisj & _).
    assert (k ∉ map fst items) as Hk.
    { intros Hin. by apply (Hdisj k Hin), list_elem_of_here. }
    clear -Hk. induction items as [|[k0 v0] items IH]; simpl; [done |].
    apply not_elem_of_cons in Hk as [Hne Hk].
    rewrite (proj2 (String.eqb_neq _ _)) by done. by rewrite IH. }
  rewrite IH; by rewrite <- app_assoc.
Qed.

End pydict_facts.

(** ** Flattening, leaf by leaf *)

Section flattening.

Lemma leaves_nil parent_key sep : leaves [] parent_key sep = [].
Proof. reflexivity. Qed.

Lemma leaves_cons k v rest parent_key sep :
  leaves ((k, v) :: rest) parent_key sep
  = match v with
    | Dict entries =>
        leaves entries (if truthy parent_key then parent_key +:+ sep +:+ k else k) sep
    | Leaf a => [(if truthy parent_key then parent_key +:+ sep +:+ k else k, a)]
    end ++ leaves rest parent_key sep.
Proof. unfold leaves. simpl. by destruct v. Qed.

(** The loop of [flatten_config] sets the leaves one after the other. *)
Lemma flatten_tree_leaves : forall (config : value) parent_key sep,
  flatten_tree config parent_key sep
  = dict_update [] (leaves_tree config parent_key sep).
Proof.
  fix IH 1. intros [a | entries] parent_key sep; [reflexivity |].
  change (flatten_tree (Dict entries) parent_key sep)
    with (flatten_config entries parent_key sep).
  change (leaves_tree (Dict entries) parent_key sep)
    with (leaves entries parent_key sep).
  rewrite flatten_config_fold. generalize (@nil (string * atom)) as items.
  induction entries as [|[k v] rest IHrest]; intros items; [reflexivity |].
  rewrite leaves_cons, dict_update_app. simpl fold_left. rewrite IHrest. f_equal.
  unfold flatten_step. cbn [fst snd].
  pose proof (IH v (if truthy parent_key then parent_key +:+ sep +:+ k else k) sep)
    as IHv.
  destruct v as [a | entries'].
  - reflexivity.
  - unfold flatten_config. rewrite IHv. apply dict_update_built.
Qed.

Lemma flatten_config_built config parent_key sep :
  flatten_config config parent_key sep = dict_update [] (leaves config parent_key sep).
Proof. apply flatten_tree_leaves. Qed.

End flattening.

(** X11. The dict [flatten_config] returns is the one obtained by setting
    the leaves of the document one after the other, in the order of the
    document, each under its joined name: the names in it are distinct, and
    the value under a name is that of the last leaf that has the name. *)
Theorem flatten_config_last_leaf_wins (config : pydict value)
    (parent_key sep name : string) :
  flatten_config config parent_key sep = dict_update [] (leaves config parent_key sep) /\
  NoDup (map fst (flatten_config config parent_key sep)) /\
  dict_get (flatten_config config parent_key sep) name
  = dict_get (rev (leaves config parent_key sep)) name.
Proof.
  rewrite flatten_config_built. split; [done |]. split.
  - apply dict_update_NoDup, NoDup_nil_2.
  - rewrite dict_get_update. by destruct (dict_get (rev _) name).
Qed.

Section flattening_cases.

Lemma leaves_app config1 config2 parent_key sep :
  leaves (config1 ++ config2) parent_key sep
  = leaves config1 parent_key sep ++ leaves config2 parent_key sep.
Proof.
  induction config1 as [|[k v] rest IH]; [done |].
  rewrite <- app_comm_cons, !leaves_cons, IH. by rewrite app_assoc.
Qed.

Lemma leaves_flat (d : pydict atom) sep :
  leaves (map (fun kv => (fst kv, Leaf (snd kv))) d) "" sep = d.
Proof.
  induction d as [|[k a] d IH]; [done |].
  simpl map. rewrite leaves_cons, IH. reflexivity.
Qed.

Lemma append_assoc (a c e : string) : (a +:+ c) +:+ e = a +:+ (c +:+ e).
Proof.
  induction a as [|x a IH]; [done |].
  change (String x ((a +:+ c) +:+ e) = String x (a +:+ c +:+ e)). by rewrite IH.
Qed.

Lemma append_empty (s : string) : s +:+ "" = s.
Proof.
  induction s as [|x s IH]; [done |].
  change (String x (s +:+ "") = String x s). by rewrite IH.
Qed.

Lemma truthy_nonempty s : truthy s = true <-> s <> "".
Proof. by destruct s. Qed.

(** Below a non-empty parent key the leaves have the names they have at top
    level, with the parent key and the separator in front, provided no key
    of the document is empty. *)
Lemma leaves_tree_prefix : forall (config : value) parent_key sep,
  no_empty_key config = true -> parent_key <> "" ->
  leaves_tree config parent_key sep
  = map (fun kv => (parent_key +:+ sep +:+ fst kv, snd kv)) (leaves_tree config "" sep).
Proof.
  fix IH 1. intros [a | entries] parent_key sep Hkeys Hparent; [reflexivity |].
  change (leaves_tree (Dict entries) ?p sep) with (leaves entries p sep).
  induction entries as [|[k v] rest IHrest]; [reflexivity |].
  simpl in Hkeys. apply andb_true_iff in Hkeys as [[Hk Hv]%andb_true_iff Hrest].
  rewrite !leaves_cons, map_app, IHrest by done. f_equal.
  rewrite (proj2 (truthy_nonempty parent_key)) by done. cbn [truthy].
  pose proof (IH v (parent_key +:+ sep +:+ k) sep Hv) as IHdeep.
  pose proof (IH v k sep Hv) as IHtop.
  destruct v as [a | entries']; [reflexivity |].
  change (leaves_tree (Dict entries') ?p sep) with (leaves entries' p sep) in *.
  rewrite IHdeep by (by destruct parent_key).
  rewrite IHtop by (by apply truthy_nonempty).
  rewrite map_map. apply map_ext. intros [k' a]. cbn [fst snd].
  by rewrite !append_assoc.
Qed.

Lemma dict_set_rename {V} (f : string -> string) (d : pydict V) k v :
  (forall a c, f a = f c -> a = c) ->
  dict_set (map (fun kv => (f (fst kv), snd kv)) d) (f k) v
  = map (fun kv => (f (fst kv), snd kv)) (dict_set d k v).
Proof.
  intros Hinj. induction d as [|[k0 v0] d IH]; [done |]. simpl.
  destruct (String.eqb_spec k0 k) as [-> | Hne].
  - by rewrite String.eqb_refl.
  - rewrite (proj2 (String.eqb_neq _ _)) by (intros ?; by apply Hne, Hinj).
    simpl. by rewrite IH.
Qed.

Lemma dict_update_rename {V} (f : string -> string) (d : pydict V) :
  (forall a c, f a = f c -> a = c) ->
  forall items,
    dict_update (map (fun kv => (f (fst kv), snd kv)) items)
      (map (fun kv => (f (fst kv), snd kv)) d)
    = map (fun kv => (f (fst kv), snd kv)) (dict_update items d).
Proof.
  intros Hinj. induction d as [|[k v] d IH]; intros items; [done |].
  simpl map. rewrite !dict_update_cons. cbn [fst snd].
  by rewrite dict_set_rename, IH.
Qed.

Lemma flatten_config_prefix config parent_key sep :
  no_empty_key (Dict config) = true -> parent_key <> "" ->
  flatten_config config parent_key sep
  = map (fun kv => (parent_key +:+ sep +:+ fst kv, snd kv))
      (flatten_config config "" sep).
Proof.
  intros Hkeys Hparent. rewrite !flatten_config_built. unfold leaves.
  rewrite leaves_tree_prefix by done.
  rewrite <- (dict_update_rename (fun k => parent_key +:+ sep +:+ k)); [done |].
  intros a c Heq. by do 2 apply append_inv_head in Heq.
Qed.

End flattening_cases.

(** X12. A section whose key is the empty string is transparent at top
    level: since the parent key is tested for truth, its entries are named
    as if they stood in its place in the document.  Below a non-empty parent
    key, an entry whose key is empty gets a name that ends with the
    separator. *)
Theorem empty_section_key_is_transparent (entries rest : pydict value)
    (parent_key sep : string) (a : atom) :
  parent_key <> "" ->
  flatten_config (("", Dict entries) :: rest) "" sep
  = flatten_config (entries ++ rest) "" sep /\
  flatten_config [("", Leaf a)] parent_key sep = [(parent_key +:+ sep, a)].
Proof.
  intros Hparent. split.
  - by rewrite !flatten_config_built, leaves_cons, leaves_app.
  - rewrite flatten_config_built, leaves_cons.
    rewrite (proj2 (truthy_nonempty parent_key)) by done.
    by rewrite <- append_assoc, append_empty.
Qed.

Lemma empty_section_key_is_transparent_witness :
  flatten_config [("", Dict [("a", Leaf (AInt 1))]); ("a", Leaf (AInt 2))] "" "_"
  = flatten_config [("a", Leaf (AInt 1)); ("a", Leaf (AInt 2))] "" "_" /\
  flatten_config [("", Leaf (AInt 3))] "s3" "_" = [("s3_", AInt 3)].
Proof.
  exact (empty_section_key_is_transparent [("a", Leaf (AInt 1))] [("a", Leaf (AInt 2))]
           "s3" "_" (AInt 3) ltac:(discriminate)).
Defined.

(** X13. A document without sections and with distinct keys is flattened
    to itself: the same names, the same values, in the same order. *)
Theorem flat_config_unchanged (d : pydict atom) (sep : string) :
  NoDup (map fst d) ->
  flatten_config (map (fun kv => (fst kv, Leaf (snd kv))) d) "" sep = d.
Proof.
  intros Hd. rewrite flatten_config_built, leaves_flat.
  by apply (dict_update_distinct d []).
Qed.

Lemma flat_config_unchanged_witness :
  flatten_config [("region", Leaf (AStr "us-east-1")); ("port", Leaf (AInt 8080))] "" "_"
  = [("region", AStr "us-east-1"); ("port", AInt 8080)].
Proof.
  apply (flat_config_unchanged [("region", AStr "us-east-1"); ("port", AInt 8080)] "_").
  simpl. apply NoDup_cons. split; [by intros [=]%list_elem_of_singleton |].
  apply NoDup_singleton.
Defined.

(** X14. Nesting is prefixing.  When no key of a section is empty, the
    names of its entries below a non-empty parent key are their names at top
    level with the parent key and the separator in front; and the lines
    printed for a document that holds the section under the name [section]
    are the lines [format_shell] prints for the section alone when it is
    given [section_] as its prefix. *)
Theorem nesting_is_prefixing (entries : pydict value) (section sep : string) :
  no_empty_key (Dict entries) = true ->
  section <> "" ->
  flatten_config entries section sep
  = map (fun kv => (section +:+ sep +:+ fst kv, snd kv)) (flatten_config entries "" sep) /\
  shell_lines [(section, Dict entries)]
  = format_shell (flatten_config entries "" "_") (section +:+ "_").
Proof.
  intros Hkeys Hsection. split; [by apply flatten_config_prefix |].
  unfold shell_lines. rewrite !format_shell_map.
  rewrite (flatten_config_built [_]), leaves_cons, leaves_nil, app_nil_r. cbn [truthy].
  rewrite <- flatten_config_built, flatten_config_prefix by done.
  rewrite map_map. apply map_ext. intros [k a]. unfold shell_line. cbn [fst snd].
  by rewrite append_assoc.
Qed.

Lemma nesting_is_prefixing_witness :
  shell_lines [("s3", Dict [("bucket", Leaf (AStr "x")); ("acl", Dict [("public", Leaf (ABool false))])])]
  = format_shell
      (flatten_config [("bucket", Leaf (AStr "x")); ("acl", Dict [("public", Leaf (ABool false))])]
         "" "_") "s3_".
Proof.
  exact (proj2 (nesting_is_prefixing
                  [("bucket", Leaf (AStr "x")); ("acl", Dict [("public", Leaf (ABool false))])]
                  "s3" "_" eq_refl ltac:(discriminate))).
Defined.

(** ** Selecting a section *)

(** X15. What [main] does with the section it is asked for, in a run
    without [--key].  For ['all'] it prints the whole document, also when the
    document has a section of that name, which cannot be selected.  For any
    other name: a section that is missing ends the run with status 1 after
    the [KeyError] whose message names it; a section that is a dict is
    printed alone, its entries named without the section; a section that is
    a scalar makes [flatten_config] fail with an uncaught [AttributeError],
    and nothing is printed. *)
Theorem section_selection (config : pydict value) (section : string) :
  section <> "all" ->
  parser_main config "all" = Printed (shell_lines config) /\
  (dict_get config section = None ->
   extract_section config section
   = KeyError ("Section '" +:+ section +:+ "' not found in configuration.") /\
   parser_main config section = Exit1) /\
  (forall entries, dict_get config section = Some (Dict entries) ->
     parser_main config section
     = Printed (format_shell (flatten_config entries "" "_") "")) /\
  (forall a, dict_get config section = Some (Leaf a) ->
     parser_main config section = AttributeError).
Proof.
  intros Hsection.
  assert (String.eqb section "all" = false) as Hneq by (by apply String.eqb_neq).
  unfold parser_main, extract_section. rewrite Hneq. split; [done |].
  split; [by intros -> |]. split; [by intros entries -> | by intros a ->].
Qed.

Lemma section_selection_witness :
  parser_main [("all", Dict [("x", Leaf (AInt 1))]); ("region", Leaf (AStr "us-east-1"))]
    "all"
  = Printed ["ALL_X='1'"; "REGION='us-east-1'"] /\
  parser_main [("all", Dict [("x", Leaf (AInt 1))]); ("region", Leaf (AStr "us-east-1"))]
    "region"
  = AttributeError /\
  parser_main [("all", Dict [("x", Leaf (AInt 1))]); ("region", Leaf (AStr "us-east-1"))]
    "s3"
  = Exit1.
Proof.
  destruct (section_selection
              [("all", Dict [("x", Leaf (AInt 1))]); ("region", Leaf (AStr "us-east-1"))]
              "region" ltac:(discriminate)) as (Hall & _ & _ & Hscalar).
  destruct (section_selection
              [("all", Dict [("x", Leaf (AInt 1))]); ("region", Leaf (AStr "us-east-1"))]
              "s3" ltac:(discriminate)) as (_ & Hmissing & _).
  split; [exact Hall |].
  split; [exact (Hscalar (AStr "us-east-1") eq_refl) | exact (proj2 (Hmissing eq_refl))].
Defined.

(** ** The file of the upload script *)



